(** * BERDL Chat: a shallow embedding of [main.py]

    The program turns a question into SQL with a hosted language model
    ([generate_sql]), runs the SQL on the BERDL query service
    ([query_berdl]) and has the language model explain the rows
    ([explain_results]).  The three functions read the process
    environment and talk to two remote services; they are embedded here
    as computations in a state-and-exception monad over a [World] that
    holds the environment, the behaviour of the remote services and the
    log of the calls made so far.  The callbacks of [main]
    ([check_connection], [add_message], [send_message], [set_and_send])
    run over a [Page] as well: the status line, the chat cards and the
    input field.

    Python values are embedded as follows.
    - [str] is [string]; the model is exact on ASCII text.  Characters
      above 127 are kept as they are by [upper], [strip] and [repr_str],
      where Python would consult its Unicode tables.
    - The values [response.json()] can produce are the inductive type
      [value]; a [dict] is an association list in insertion order, read
      by first match.
    - The shortest round-trip printing of a [float] is a parameter
      ([float_repr]) of the functions that print values. *)

From Stdlib Require Import ZArith Lia Bool Ascii DecimalString.
From Stdlib Require Import SpecFloat.
From stdpp Require Import base option list strings gmap.

Local Open Scope Z_scope.

(** ** Strings *)

Module Str.

(** The double quote and the line feed, which a literal cannot hold
    conveniently. *)
Definition dq : string := String (ascii_of_nat 34) EmptyString.
Definition nl : string := String (ascii_of_nat 10) EmptyString.

Definition code (c : ascii) : nat := nat_of_ascii c.

(** [c.upper()] for one ASCII character: [a]..[z] move down by 32. *)
Definition upper_char (c : ascii) : ascii :=
  if (Nat.leb 97 (code c) && Nat.leb (code c) 122)%bool
  then ascii_of_nat (code c - 32) else c.

(** [s.upper()] *)
Fixpoint upper (s : string) : string :=
  match s with
  | EmptyString => EmptyString
  | String c s' => String (upper_char c) (upper s')
  end.

(** [s.startswith(p)] *)
Fixpoint startswith (p s : string) : bool :=
  match p, s with
  | EmptyString, _ => true
  | String a p', String b s' => (Ascii.eqb a b && startswith p' s')%bool
  | String _ _, EmptyString => false
  end.

(** [sub in s]: [sub] occurs in [s] at some position. *)
Fixpoint contains (sub s : string) : bool :=
  (startswith sub s ||
   match s with
   | EmptyString => false
   | String _ s' => contains sub s'
   end)%bool.

(** What [contains] decides: [s] splits around an occurrence of [sub]. *)
Definition occurs_in (sub s : string) : Prop :=
  exists pre post : string, s = pre +:+ sub +:+ post.

(** [c.isspace()] on ASCII: tab, line feed, vertical tab, form feed,
    carriage return, the four separators 28..31 and the space. *)
Definition isspace (c : ascii) : bool :=
  let n := code c in
  ((Nat.leb 9 n && Nat.leb n 13) || (Nat.leb 28 n && Nat.leb n 32))%bool.

(** [s.lstrip()] *)
Fixpoint lstrip (s : string) : string :=
  match s with
  | EmptyString => EmptyString
  | String c s' => if isspace c then lstrip s' else s
  end.

(** [s.rstrip()] *)
Fixpoint rstrip (s : string) : string :=
  match s with
  | EmptyString => EmptyString
  | String c s' =>
      match rstrip s' with
      | EmptyString => if isspace c then EmptyString else String c EmptyString
      | r => String c r
      end
  end.

(** [s.strip()] *)
Definition strip (s : string) : string := rstrip (lstrip s).

(** Every character of [s] is white space ([s] may be empty). *)
Fixpoint blank (s : string) : bool :=
  match s with
  | EmptyString => true
  | String c s' => (isspace c && blank s')%bool
  end.

(** The first and the last character, when there is one. *)
Definition first_char (s : string) : option ascii :=
  match s with
  | EmptyString => None
  | String c _ => Some c
  end.

Fixpoint last_char (s : string) : option ascii :=
  match s with
  | EmptyString => None
  | String c EmptyString => Some c
  | String _ s' => last_char s'
  end.

(** [sep.join(l)] *)
Fixpoint join (sep : string) (l : list string) : string :=
  match l with
  | [] => EmptyString
  | [x] => x
  | x :: l' => x +:+ sep +:+ join sep l'
  end.

(** Every line followed by a line feed. *)
Fixpoint unlines (l : list string) : string :=
  match l with
  | [] => EmptyString
  | x :: l' => x +:+ nl +:+ unlines l'
  end.

(** [s[:n]] for a string *)
Fixpoint take (n : nat) (s : string) : string :=
  match n, s with
  | S n', String c s' => String c (take n' s')
  | _, _ => EmptyString
  end.

(** [str(z)] for an [int]: decimal digits with a leading minus sign. *)
Definition of_Z (z : Z) : string := NilZero.string_of_int (Z.to_int z).

Definition hex_digit (n : nat) : ascii :=
  ascii_of_nat (if Nat.ltb n 10 then 48 + n else 87 + n).

(** One character inside [repr(s)] with quote character [q]. *)
Definition repr_char (q c : ascii) : string :=
  let n := code c in
  if (Ascii.eqb c q || Ascii.eqb c "\")%bool then String "\" (String c EmptyString)
  else if Nat.eqb n 9 then "\t"
  else if Nat.eqb n 10 then "\n"
  else if Nat.eqb n 13 then "\r"
  else if (Nat.ltb n 32 || Nat.eqb n 127)%bool
    then String "\" (String "x" (String (hex_digit (Nat.div n 16))
                                  (String (hex_digit (Nat.modulo n 16)) EmptyString)))
  else String c EmptyString.

Fixpoint repr_body (q : ascii) (s : string) : string :=
  match s with
  | EmptyString => EmptyString
  | String c s' => repr_char q c +:+ repr_body q s'
  end.

Definition apos : ascii := ascii_of_nat 39.
Definition dquote : ascii := ascii_of_nat 34.

(** [repr(s)]: single quotes, unless [s] holds a single quote and no
    double quote. *)
Definition repr_str (s : string) : string :=
  let q := if (contains (String apos EmptyString) s
               && negb (contains (String dquote EmptyString) s))%bool
           then dquote else apos in
  String q (repr_body q s +:+ String q EmptyString).

End Str.

(** ** Python values *)

(** The values [json.loads] builds.  A [float] is a binary IEEE number
    ([spec_float]); Python also decodes [NaN] and [Infinity]. *)
#[warnings="-register-all"]
Inductive value : Type :=
| VNone
| VBool (b : bool)
| VInt (z : Z)
| VFloat (f : spec_float)
| VStr (s : string)
| VList (l : list value)
| VDict (d : list (string * value)).

(** A [dict] with [str] keys, in insertion order. *)
Abbreviation dict := (list (string * value)).

(** [type(v).__name__] *)
Definition type_name (v : value) : string :=
  match v with
  | VNone => "NoneType"
  | VBool _ => "bool"
  | VInt _ => "int"
  | VFloat _ => "float"
  | VStr _ => "str"
  | VList _ => "list"
  | VDict _ => "dict"
  end.

(** [bool(v)]: the truth value Python gives to [v]. *)
Definition truthy (v : value) : bool :=
  match v with
  | VNone => false
  | VBool b => b
  | VInt z => negb (Z.eqb z 0)
  | VFloat (S754_zero _) => false
  | VFloat _ => true
  | VStr s => negb (String.eqb s EmptyString)
  | VList l => match l with [] => false | _ => true end
  | VDict d => match d with [] => false | _ => true end
  end.

(** [d.get(k)], as an option: [None] when the key is absent. *)
Fixpoint dict_lookup (d : dict) (k : string) : option value :=
  match d with
  | [] => None
  | (k', v) :: d' => if String.eqb k' k then Some v else dict_lookup d' k
  end.

(** [d.get(k, dflt)] *)
Definition dict_get (d : dict) (k : string) (dflt : value) : value :=
  default dflt (dict_lookup d k).

(** [k in d] *)
Definition dict_mem (k : string) (d : dict) : bool :=
  bool_decide (is_Some (dict_lookup d k)).

Section Printing.

(** [repr(x)] for a [float] [x]: the shortest decimal that reads back
    as [x], computed by the interpreter. *)
Variable float_repr : spec_float -> string.

(** [repr(v)] *)
Fixpoint repr (v : value) : string :=
  match v with
  | VNone => "None"
  | VBool true => "True"
  | VBool false => "False"
  | VInt z => Str.of_Z z
  | VFloat f => float_repr f
  | VStr s => Str.repr_str s
  | VList l => "[" +:+ Str.join ", " (map repr l) +:+ "]"
  | VDict d =>
      "{" +:+ Str.join ", "
                (map (fun kv => match kv with
                                | (k, x) => Str.repr_str k +:+ ": " +:+ repr x
                                end) d) +:+ "}"
  end.

(** [str(v)], also what an f-string field [{v}] prints: a [str] prints
    as itself, every other value as its [repr]. *)
Definition str (v : value) : string :=
  match v with
  | VStr s => s
  | _ => repr v
  end.

End Printing.

(** ** Exceptions *)

(** The exceptions the program can meet, all subclasses of [Exception]:
    [httpx.TimeoutException] (with its subclasses) and every other one,
    given by its class name.  Both carry [str(e)]. *)
Inductive exn : Type :=
| TimeoutException (msg : string)
| OtherException (cls : string) (msg : string).

(** [str(e)] *)
Definition exn_str (e : exn) : string :=
  match e with
  | TimeoutException m => m
  | OtherException _ m => m
  end.

(** [getattr(v, name)] fails on a value that has no such method. *)
Definition AttributeError (v_type attr : string) : exn :=
  OtherException "AttributeError"
    ("'" +:+ v_type +:+ "' object has no attribute '" +:+ attr +:+ "'").

(** How a Python call ends: with a value or with a raised exception. *)
Inductive outcome (A : Type) : Type :=
| Return (a : A)
| Raise (e : exn).
Arguments Return {A} a.
Arguments Raise {A} e.

(** ** The world outside the process *)

(** The POST that [query_berdl] sends: the two headers, the two fields
    of the JSON body and the timeout in seconds. *)
Record http_request := {
  url : string;
  authorization : string;
  content_type : string;
  body_query : string;
  body_limit : Z;
  timeout_s : Z
}.

(** A response, as far as the program looks at it: what [response.json()]
    does, which is to return the decoded body or to raise. *)
Record http_response := { json : outcome value }.

(** One block of a language model's message. *)
Inductive content_block : Type :=
| TextBlock (text : string)
| OtherBlock (cls : string).

(** The arguments of [client.messages.create]. *)
Record llm_request := {
  api_key : string;
  model : string;
  max_tokens : Z;
  system : option string;
  messages : list (string * string)
}.

(** The calls that leave the process. *)
Inductive event : Type :=
| HttpPost (req : http_request)
| MessagesCreate (req : llm_request).

(** What the remote services do: how a call ends, given the calls made
    before it (most recent first).  A mock that answers every call alike
    ignores the history. *)
Record Remote := {
  post_reply : list event -> http_request -> outcome http_response;
  create_reply : list event -> llm_request -> outcome (list content_block)
}.

Record World := {
  environ : gmap string string;
  remote : Remote;
  trace : list event
}.

(** ** The monad of the program *)

Definition M (A : Type) : Type := World -> outcome A * World.

Definition ret {A} (a : A) : M A := fun w => (Return a, w).

Definition raise {A} (e : exn) : M A := fun w => (Raise e, w).

Definition bind {A B} (m : M A) (k : A -> M B) : M B :=
  fun w => match m w with
           | (Return a, w') => k a w'
           | (Raise e, w') => (Raise e, w')
           end.

(** [try: m  except Exception as e: h(e)] *)
Definition try_except {A} (m : M A) (h : exn -> M A) : M A :=
  fun w => match m w with
           | (Return a, w') => (Return a, w')
           | (Raise e, w') => h e w'
           end.

Notation "x <- m ;; k" := (bind m (fun x => k))
  (at level 100, m at next level, right associativity).

(** Lifts the end of a pure step into the monad. *)
Definition lift {A} (o : outcome A) : M A := fun w => (o, w).

(** [os.getenv(name)] *)
Definition getenv (name : string) : M (option string) :=
  fun w => (Return (environ w !! name), w).

Definition log (e : event) (w : World) : World :=
  {| environ := environ w; remote := remote w; trace := e :: trace w |}.

(** [httpx.post(...)]: the call is logged, the service answers. *)
Definition httpx_post (req : http_request) : M http_response :=
  fun w => (post_reply (remote w) (trace w) req, log (HttpPost req) w).

(** [client.messages.create(...).content] *)
Definition messages_create (req : llm_request) : M (list content_block) :=
  fun w => (create_reply (remote w) (trace w) req, log (MessagesCreate req) w).

(** ** The program *)

Definition BERDL_API_URL : string :=
  "https://hub.berdl.kbase.us/apis/mcp/delta/tables/query".

Definition SCHEMA_CONTEXT : string :=
  Str.unlines [
    "You are a SQL assistant for the BERDL Data Lakehouse (NMDC microbiome data).";
    EmptyString;
    "Available database: nmdc_core";
    EmptyString;
    "Key tables and their columns:";
    EmptyString;
    "1. trait_features - Predicted microbial traits per sample";
    "   - sample_id (string)";
    "   - 90+ columns like: " +:+ Str.dq +:+ "functional_group:plastic_degradation" +:+ Str.dq +:+ ", " +:+ Str.dq +:+ "functional_group:methanogenesis" +:+ Str.dq +:+ ",";
    "     " +:+ Str.dq +:+ "functional_group:nitrogen_fixation" +:+ Str.dq +:+ ", " +:+ Str.dq +:+ "functional_group:oil_bioremediation" +:+ Str.dq +:+ ",";
    "     " +:+ Str.dq +:+ "functional_group:human_pathogens_all" +:+ Str.dq +:+ ", " +:+ Str.dq +:+ "functional_group:cellulolysis" +:+ Str.dq +:+ ", etc.";
    "   - Values are numeric (0 = absent, >0 = present/abundance)";
    EmptyString;
    "2. abiotic_features - Environmental measurements per sample";
    "   - sample_id, annotations_ph, annotations_temp_has_numeric_value,";
    "     annotations_depth_has_numeric_value, annotations_tot_org_carb_has_numeric_value, etc.";
    EmptyString;
    "3. taxonomy_dim - Taxonomy hierarchy (2.6M records)";
    "   - taxid, kingdom, phylum, class, order, family, genus, species";
    EmptyString;
    "4. study_table - Study metadata (48 studies)";
    "   - study_id, name, ecosystem, ecosystem_type, ecosystem_subtype";
    EmptyString;
    "5. cog_categories - COG functional categories";
    "   - cog_id, category_code, category_name, description";
    EmptyString;
    "Rules:";
    "- Always use fully qualified table names: nmdc_core.table_name";
    "- Columns with special characters need quotes: " +:+ Str.dq +:+ "functional_group:plastic_degradation" +:+ Str.dq;
    "- Keep queries simple and limit results (LIMIT 20 unless user asks for more)";
    "- Return ONLY the SQL query, no explanation, no markdown code blocks"
  ].

(** The envelope [{"error": msg}]. *)
Definition error_envelope (msg : value) : value := VDict [("error", msg)].

(** The denylist of [query_berdl]. *)
Definition keywords : list string := ["DROP"; "DELETE"; "UPDATE"; "INSERT"; "ALTER"].

(** [any(keyword in sql.upper() for keyword in keywords)] *)
Definition denied (sql : string) : bool :=
  existsb (fun keyword => Str.contains keyword (Str.upper sql)) keywords.

(** Looking up the method [get] of a decoded value: only a [dict] has it. *)
Definition get_method (data : value) : M dict :=
  match data with
  | VDict d => ret d
  | _ => raise (AttributeError (type_name data) "get")
  end.

(** The POST of [query_berdl] for a token and a query. *)
Definition query_request (token sql : string) : http_request :=
  {| url := BERDL_API_URL;
     authorization := "Bearer " +:+ token;
     content_type := "application/json";
     body_query := sql;
     body_limit := 100;
     timeout_s := 30 |}.

(** The body of the [try] block of [query_berdl]. *)
Definition query_attempt (token sql : string) : M value :=
  response <- httpx_post (query_request token sql) ;;
  data <- lift (json response) ;;
  d <- get_method data ;;
  if (truthy (dict_get d "error" VNone) || truthy (dict_get d "error_type" VNone))%bool
  then ret (error_envelope (dict_get d "message" (VStr "Unknown API error")))
  else ret data.

(** The two [except] clauses of [query_berdl]. *)
Definition query_handler (e : exn) : M value :=
  match e with
  | TimeoutException _ => ret (error_envelope (VStr "Query timed out after 30 seconds"))
  | OtherException _ _ => ret (error_envelope (VStr (exn_str e)))
  end.

(** [query_berdl(sql)] *)
Definition query_berdl (sql : string) : M value :=
  token <- getenv "KB_AUTH_TOKEN" ;;
  match token with
  | None | Some EmptyString =>
      ret (error_envelope (VStr "KB_AUTH_TOKEN not set in .env"))
  | Some token =>
      if denied sql
      then ret (error_envelope (VStr "Only SELECT queries are allowed"))
      else try_except (query_attempt token sql) query_handler
  end.

Definition MODEL : string := "claude-sonnet-4-20250514".

(** [content[0].text.strip()] *)
Definition first_text (content : list content_block) : M string :=
  match content with
  | [] => raise (OtherException "IndexError" "list index out of range")
  | TextBlock text :: _ => ret (Str.strip text)
  | OtherBlock cls :: _ => raise (AttributeError cls "text")
  end.

(** The request of [generate_sql]. *)
Definition generate_request (key user_question : string) : llm_request :=
  {| api_key := key;
     model := MODEL;
     max_tokens := 500;
     system := Some SCHEMA_CONTEXT;
     messages := [("user", "Write a SQL query to answer: " +:+ user_question)] |}.

(** [generate_sql(user_question)] *)
Definition generate_sql (user_question : string) : M string :=
  key <- getenv "ANTHROPIC_API_KEY" ;;
  match key with
  | None | Some EmptyString => ret "-- Error: ANTHROPIC_API_KEY not set"
  | Some key =>
      content <- messages_create (generate_request key user_question) ;;
      first_text content
  end.

(** [v[:10]]: a prefix of a list or of a string; a [dict] has no such
    key (the slice is hashed and looked up, as from Python 3.12 on;
    before, hashing it raised [TypeError]); other values cannot be
    subscripted. *)
Definition slice10 (v : value) : M value :=
  match v with
  | VList l => ret (VList (firstn 10 l))
  | VStr s => ret (VStr (Str.take 10 s))
  | VDict _ => raise (OtherException "KeyError" "slice(None, 10, None)")
  | _ => raise (OtherException "TypeError"
                  ("'" +:+ type_name v +:+ "' object is not subscriptable"))
  end.

(** [len(v)] *)
Definition len (v : value) : M Z :=
  match v with
  | VList l => ret (Z.of_nat (length l))
  | VStr s => ret (Z.of_nat (String.length s))
  | VDict d => ret (Z.of_nat (length d))
  | _ => raise (OtherException "TypeError"
                  ("object of type '" +:+ type_name v +:+ "' has no len()"))
  end.

(** The f-string of [explain_results], with its four fields filled in. *)
Definition explain_prompt (question sql total_rows result_summary : string) : string :=
  "The user asked: " +:+ Str.dq +:+ question +:+ Str.dq +:+ Str.nl +:+
  Str.nl +:+
  "I ran this SQL: " +:+ sql +:+ Str.nl +:+
  Str.nl +:+
  "Results (" +:+ total_rows +:+ " rows total, showing first 10):" +:+ Str.nl +:+
  result_summary +:+ Str.nl +:+
  Str.nl +:+
  "Explain what we found in 2-3 sentences. Be specific about numbers and findings.".

(** The request of [explain_results]: no system prompt. *)
Definition explain_request (key content : string) : llm_request :=
  {| api_key := key;
     model := MODEL;
     max_tokens := 300;
     system := None;
     messages := [("user", content)] |}.

Section Explain.

Variable float_repr : spec_float -> string.

(** The part of [explain_results] after its two early returns. *)
Definition explain_call (key question sql : string) (results : dict) : M string :=
  let result_data := dict_get results "result" (VList []) in
  sample <- slice10 result_data ;;
  let result_summary := str float_repr sample in
  pagination <- get_method (dict_get results "pagination" (VDict [])) ;;
  n <- len result_data ;;
  let total_rows := dict_get pagination "total_count" (VInt n) in
  content <- messages_create
               (explain_request key
                  (explain_prompt question sql (str float_repr total_rows) result_summary)) ;;
  first_text content.

(** [explain_results(question, sql, results)] *)
Definition explain_results (question sql : string) (results : dict) : M string :=
  key <- getenv "ANTHROPIC_API_KEY" ;;
  match key with
  | None | Some EmptyString => ret "Error: ANTHROPIC_API_KEY not set"
  | Some key =>
      match dict_lookup results "error" with
      | Some err => ret ("**Query failed:** " +:+ str float_repr err)
      | None => explain_call key question sql results
      end
  end.

End Explain.

(** ** The page of [main] *)

(** What [main] puts on the page, as far as its callbacks change it: the
    classes of the status icon, the status text, the cards of the chat
    column and the value of the input field.  Styling that never changes
    is left out. *)

(** A card of the chat column: a question; an answer rendered as
    markdown, with the [Show SQL] panel when there is SQL to show; the
    spinner with [Thinking...]. *)
Inductive card : Type :=
| UserCard (content : string)
| AssistantCard (content : string) (sql : option string)
| LoadingCard.

Record Page := {
  dot_classes : list string;
  status_text : string;
  chat : list card;
  input_value : string
}.

(** The three colours of the status icon. *)
Definition YELLOW : string := "text-yellow-500".
Definition RED : string := "text-red-500".
Definition GREEN : string := "text-green-500".

(** The page as [main] builds it, before the connection check. *)
Definition initial_page : Page :=
  {| dot_classes := [YELLOW; "text-xs"];
     status_text := "Checking connection...";
     chat := [];
     input_value := EmptyString |}.

(** The example questions of the four buttons. *)
Definition examples : list string :=
  [ "How many samples have plastic degradation?";
    "What kingdoms are in the taxonomy?";
    "Show samples with methanogenesis";
    "Count studies by ecosystem type" ].

(** Keeps the first occurrence of every class. *)
Fixpoint first_occurrences (seen l : list string) : list string :=
  match l with
  | [] => []
  | c :: l' =>
      if existsb (String.eqb c) seen then first_occurrences seen l'
      else c :: first_occurrences (c :: seen) l'
  end.

(** [element.classes(add, remove=...)], the two arguments split into
    class names: the removed classes go, the added ones are appended,
    and a class is kept once. *)
Definition update_classes (add remove classes : list string) : list string :=
  first_occurrences []
    (filter (fun c => negb (existsb (String.eqb c) remove)) classes ++ add).

(** Computations of the callbacks: they change the page and run the
    three functions in the world.  The page is kept when an exception
    passes through. *)
Definition UI (A : Type) : Type := Page -> World -> outcome A * Page * World.

Definition ui_ret {A} (a : A) : UI A := fun p w => (Return a, p, w).

Definition ui_bind {A B} (m : UI A) (k : A -> UI B) : UI B :=
  fun p w => match m p w with
             | (Return a, p', w') => k a p' w'
             | (Raise e, p', w') => (Raise e, p', w')
             end.

Notation "x <-- m ;; k" := (ui_bind m (fun x => k))
  (at level 100, m at next level, right associativity).

(** Runs a computation of the program; the page stays as it is. *)
Definition call {A} (m : M A) : UI A :=
  fun p w => match m w with (o, w') => (o, p, w') end.

(** Reads the page. *)
Definition read {A} (f : Page -> A) : UI A := fun p w => (Return (f p), p, w).

(** Changes the page. *)
Definition modify (f : Page -> Page) : UI unit := fun p w => (Return tt, f p, w).

Definition set_dot_classes (f : list string -> list string) (p : Page) : Page :=
  {| dot_classes := f (dot_classes p); status_text := status_text p;
     chat := chat p; input_value := input_value p |}.

Definition set_status_text (text : string) (p : Page) : Page :=
  {| dot_classes := dot_classes p; status_text := text;
     chat := chat p; input_value := input_value p |}.

Definition set_chat (f : list card -> list card) (p : Page) : Page :=
  {| dot_classes := dot_classes p; status_text := status_text p;
     chat := f (chat p); input_value := input_value p |}.

Definition set_input_value (text : string) (p : Page) : Page :=
  {| dot_classes := dot_classes p; status_text := status_text p;
     chat := chat p; input_value := text |}.

(** The envelope of [query_berdl] as the [dict] it is.  [query_berdl]
    returns nothing else ([query_berdl_returns_dict]), so the second case
    is never met. *)
Definition as_dict (results : value) : M dict :=
  match results with
  | VDict d => ret d
  | _ => raise (OtherException "TypeError"
                  ("'" +:+ type_name results +:+ "' object is not a mapping"))
  end.

(** [v[:n]], as [slice10] for any bound. *)
Definition slice_to (n : nat) (v : value) : M value :=
  match v with
  | VList l => ret (VList (firstn n l))
  | VStr s => ret (VStr (Str.take n s))
  | VDict _ => raise (OtherException "KeyError"
                        ("slice(None, " +:+ Str.of_Z (Z.of_nat n) +:+ ", None)"))
  | _ => raise (OtherException "TypeError"
                  ("'" +:+ type_name v +:+ "' object is not subscriptable"))
  end.

(** [add_message(role, content, sql)]: one more card at the end of the
    chat column; the SQL panel is there for an answer with truthy
    [sql]. *)
Definition add_message (role content : string) (sql : option string) (p : Page) : Page :=
  let new_card :=
    if String.eqb role "user" then UserCard content
    else AssistantCard content
           match sql with
           | Some (String c s) => Some (String c s)
           | _ => None
           end in
  set_chat (fun cards => cards ++ [new_card]) p.

(** The spinner card is added at the end; its position stands for the
    card object that [send_message] later removes. *)
Definition add_loading_card : UI nat :=
  fun p w => (Return (length (chat p)), set_chat (fun cards => cards ++ [LoadingCard]) p, w).

(** [chat_container.remove(loading_card)] *)
Definition remove_card (position : nat) : UI unit :=
  modify (set_chat (delete position)).

(** The page with the status icon turned red, the text as it was. *)
Definition red_page (p : Page) : Page :=
  set_dot_classes (update_classes [RED] [YELLOW; GREEN]) p.

(** The page with the status icon turned green and the text that goes
    with it. *)
Definition green_page (p : Page) : Page :=
  set_status_text "Connected to BERDL"
    (set_dot_classes (update_classes [GREEN] [YELLOW; RED]) p).

Section Callbacks.

Variable float_repr : spec_float -> string.

(** [check_connection()] *)
Definition check_connection : UI unit :=
  result <-- call (query_berdl "SELECT 1 as test") ;;
  result <-- call (as_dict result) ;;
  match dict_lookup result "error" with
  | Some err =>
      _ <-- modify (set_dot_classes (update_classes [RED] [YELLOW; GREEN])) ;;
      shown <-- call (slice_to 50 err) ;;
      modify (set_status_text ("Disconnected: " +:+ str float_repr shown))
  | None =>
      _ <-- modify (set_dot_classes (update_classes [GREEN] [YELLOW; RED])) ;;
      modify (set_status_text "Connected to BERDL")
  end.

(** [send_message()] *)
Definition send_message : UI unit :=
  question <-- read input_value ;;
  if String.eqb (Str.strip question) EmptyString then ui_ret tt
  else
    _ <-- modify (set_input_value EmptyString) ;;
    _ <-- modify (add_message "user" question None) ;;
    loading_card <-- add_loading_card ;;
    sql <-- call (generate_sql question) ;;
    results <-- call (query_berdl sql) ;;
    results <-- call (as_dict results) ;;
    explanation <-- call (explain_results float_repr question sql results) ;;
    _ <-- remove_card loading_card ;;
    modify (add_message "assistant" explanation (Some sql)).

(** [set_and_send(question)], the click on an example button. *)
Definition set_and_send (question : string) : UI unit :=
  _ <-- modify (set_input_value question) ;;
  send_message.

End Callbacks.

(** The calls one turn can add to the log, most recent first: none; the
    POST alone, with the sentinel of the missing key as its SQL; the
    request for SQL alone; that request and the POST; those two and the
    request for the explanation. *)
Inductive turn_calls : list event -> Prop :=
| no_call :
    turn_calls []
| sentinel_posted (post : http_request) :
    body_query post = "-- Error: ANTHROPIC_API_KEY not set" ->
    turn_calls [HttpPost post]
| asked (ask : llm_request) :
    system ask = Some SCHEMA_CONTEXT ->
    turn_calls [MessagesCreate ask]
| asked_posted (ask : llm_request) (post : http_request) :
    system ask = Some SCHEMA_CONTEXT ->
    turn_calls [HttpPost post; MessagesCreate ask]
| asked_posted_explained (ask : llm_request) (post : http_request) (explain : llm_request) :
    system ask = Some SCHEMA_CONTEXT -> system explain = None ->
    turn_calls [MessagesCreate explain; HttpPost post; MessagesCreate ask].

(** ** The response handling in the words of the specification *)

(** "The decoded response contains a truthy [error] or [error_type]
    field." *)
Definition reports_error (data : value) : bool :=
  match data with
  | VDict d =>
      (truthy (dict_get d "error" VNone) || truthy (dict_get d "error_type" VNone))%bool
  | _ => false
  end.

(** "The response's [message] field, or a generic fallback." *)
Definition message_or_fallback (data : value) : value :=
  match data with
  | VDict d => dict_get d "message" (VStr "Unknown API error")
  | _ => VStr "Unknown API error"
  end.

(** "Return an error envelope using the message; otherwise return the
    decoded body verbatim." *)
Definition spec_response_handling (data : value) : value :=
  if reports_error data then error_envelope (message_or_fallback data) else data.

(** ** Sample worlds *)

(** A remote that gives every call the same two answers. *)
Definition mock (http : outcome http_response) (llm : outcome (list content_block)) : Remote :=
  {| post_reply := fun _ _ => http; create_reply := fun _ _ => llm |}.

(** A fresh process: no call made yet. *)
Definition fresh (env : gmap string string) (r : Remote) : World :=
  {| environ := env; remote := r; trace := [] |}.

Definition no_env : gmap string string := ∅.

Definition full_env : gmap string string :=
  <["KB_AUTH_TOKEN" := "secret-token"]> (<["ANTHROPIC_API_KEY" := "secret-key"]> ∅).

(** Only the token of the query service is set. *)
Definition token_env : gmap string string :=
  <["KB_AUTH_TOKEN" := "secret-token"]> ∅.

(** A language model that cannot be reached. *)
Definition model_down : outcome (list content_block) :=
  Raise (OtherException "APIConnectionError" "Connection error.").

(** A response whose body decodes to [data]. *)
Definition body (data : value) : outcome http_response :=
  Return {| json := Return data |}.

(** A language model that answers with one text block. *)
Definition says (text : string) : outcome (list content_block) :=
  Return [TextBlock text].

(** The success envelope of the service for one row. *)
Definition one_row : dict :=
  [("result", VList [VDict [("count", VInt 42)]]);
   ("pagination", VDict [("total_count", VInt 1)])].

(** A language model that writes [sql] when it is given a system prompt
    (as [generate_sql] does) and [explanation] when it is not (as
    [explain_results] does). *)
Definition assistant (sql explanation : string) (http : outcome http_response) : Remote :=
  {| post_reply := fun _ _ => http;
     create_reply := fun _ req =>
                       match system req with
                       | Some _ => says sql
                       | None => says explanation
                       end |}.

(** The page with a question typed in and one earlier card. *)
Definition asking (question : string) : Page :=
  {| dot_classes := [GREEN; "text-xs"];
     status_text := "Connected to BERDL";
     chat := [UserCard "earlier question"];
     input_value := question |}.

(** A printer of floats for the sample runs: exact on zeros, infinities
    and NaN; a finite number is shown as mantissa and binary exponent. *)
Definition sample_float_repr (f : spec_float) : string :=
  match f with
  | S754_zero false => "0.0"
  | S754_zero true => "-0.0"
  | S754_infinity false => "inf"
  | S754_infinity true => "-inf"
  | S754_nan => "nan"
  | S754_finite s m e =>
      (if s then "-" else EmptyString) +:+ Str.of_Z (Z.pos m) +:+ "*2**" +:+ Str.of_Z e
  end.

(** * Properties *)

(** ** Strings *)

Example upper_mixed : Str.upper "select Last_Updated from t" = "SELECT LAST_UPDATED FROM T".
Proof. reflexivity. Qed.

Example contains_update : Str.contains "UPDATE" "SELECT LAST_UPDATED FROM T" = true.
Proof. reflexivity. Qed.

Example strip_both : Str.strip (" " +:+ Str.nl +:+ "SELECT 1 " +:+ Str.nl) = "SELECT 1".
Proof. reflexivity. Qed.

Example of_Z_neg : Str.of_Z (-42) = "-42" /\ Str.of_Z 0 = "0".
Proof. split; reflexivity. Qed.

Example repr_plain : Str.repr_str "count" = "'count'".
Proof. reflexivity. Qed.

Lemma append_nil (s : string) : EmptyString +:+ s = s.
Proof. reflexivity. Qed.

Lemma append_cons (c : ascii) (a b : string) : String c a +:+ b = String c (a +:+ b).
Proof. reflexivity. Qed.

Lemma append_assoc (a b c : string) : (a +:+ b) +:+ c = a +:+ b +:+ c.
Proof.
  induction a as [|x a IH]; [reflexivity |].
  now rewrite !append_cons, IH.
Qed.

Lemma startswith_app (p s : string) : Str.startswith p (p +:+ s) = true.
Proof.
  induction p as [|a p IH]; [reflexivity |].
  rewrite append_cons. simpl. now rewrite Ascii.eqb_refl, IH.
Qed.

Lemma startswith_split (p s : string) :
  Str.startswith p s = true -> exists post, s = p +:+ post.
Proof.
  revert s. induction p as [|a p IH]; intros s H.
  - exists s. reflexivity.
  - destruct s as [|b s]; simpl in H; [discriminate |].
    apply andb_true_iff in H as [Hab Hps].
    apply Ascii.eqb_eq in Hab. subst b.
    destruct (IH s Hps) as [post ->].
    exists post. reflexivity.
Qed.

(** [contains] decides [occurs_in]. *)
Lemma contains_occurs (sub s : string) :
  Str.contains sub s = true <-> Str.occurs_in sub s.
Proof.
  split.
  - induction s as [|c s IH]; intros H.
    + destruct sub; simpl in H; [| discriminate].
      exists EmptyString, EmptyString. reflexivity.
    + simpl in H. apply orb_true_iff in H as [H | H].
      * destruct (startswith_split sub (String c s) H) as [post Hpost].
        exists EmptyString, post. exact Hpost.
      * destruct (IH H) as (pre & post & ->).
        exists (String c pre), post. reflexivity.
  - intros (pre & post & ->).
    induction pre as [|c pre IH].
    + rewrite append_nil.
      destruct (sub +:+ post) eqn:E; simpl.
      * destruct sub; [reflexivity | discriminate].
      * rewrite <- E, startswith_app. reflexivity.
    + rewrite append_cons. simpl. rewrite IH. apply orb_true_r.
Qed.

Lemma upper_app (a b : string) : Str.upper (a +:+ b) = Str.upper a +:+ Str.upper b.
Proof.
  induction a as [|x a IH]; [reflexivity |].
  rewrite append_cons. simpl. now rewrite IH, append_cons.
Qed.

(** The denylist rejects exactly the queries whose upper-cased text
    holds one of the five keywords somewhere. *)
Lemma denied_spec (sql : string) :
  denied sql = true <->
  exists kw, In kw keywords /\ Str.occurs_in kw (Str.upper sql).
Proof.
  unfold denied. rewrite existsb_exists.
  split; intros (kw & Hin & H); exists kw; (split; [exact Hin |]);
    now apply contains_occurs.
Qed.

(** The scan ignores case and context: a keyword written in any mix of
    cases, anywhere in the text, is enough. *)
Lemma denied_any_case (pre k post : string) :
  In (Str.upper k) keywords -> denied (pre +:+ k +:+ post) = true.
Proof.
  intros Hin. apply denied_spec. exists (Str.upper k). split; [exact Hin |].
  exists (Str.upper pre), (Str.upper post). now rewrite !upper_app.
Qed.

(** ** Unfolding the three functions *)

Lemma query_berdl_eq (sql : string) (w : World) :
  query_berdl sql w =
  match environ w !! "KB_AUTH_TOKEN" with
  | None | Some EmptyString =>
      (Return (error_envelope (VStr "KB_AUTH_TOKEN not set in .env")), w)
  | Some token =>
      if denied sql
      then (Return (error_envelope (VStr "Only SELECT queries are allowed")), w)
      else try_except (query_attempt token sql) query_handler w
  end.
Proof.
  unfold query_berdl, bind, getenv, ret.
  destruct (environ w !! "KB_AUTH_TOKEN") as [[|c t]|]; try reflexivity.
  destruct (denied sql); reflexivity.
Qed.

Lemma query_attempt_eq (token sql : string) (w : World) :
  query_attempt token sql w =
  let w' := log (HttpPost (query_request token sql)) w in
  match post_reply (remote w) (trace w) (query_request token sql) with
  | Raise e => (Raise e, w')
  | Return response =>
      match json response with
      | Raise e => (Raise e, w')
      | Return (VDict d) =>
          if (truthy (dict_get d "error" VNone)
              || truthy (dict_get d "error_type" VNone))%bool
          then (Return (error_envelope (dict_get d "message" (VStr "Unknown API error"))), w')
          else (Return (VDict d), w')
      | Return data => (Raise (AttributeError (type_name data) "get"), w')
      end
  end.
Proof.
  unfold query_attempt, bind, httpx_post, lift, get_method, ret, raise.
  destruct (post_reply _ _ _) as [[[data|e]]|e]; try reflexivity.
  destruct data; try reflexivity.
  cbn. destruct (orb _ _); reflexivity.
Qed.

(** The world after [query_berdl]: same environment, same remote, and
    the log either untouched or one POST longer. *)
Lemma query_berdl_world (sql : string) (w : World) :
  let w' := snd (query_berdl sql w) in
  environ w' = environ w /\ remote w' = remote w /\
  (trace w' = trace w \/ exists req, trace w' = HttpPost req :: trace w).
Proof.
  rewrite query_berdl_eq.
  destruct (environ w !! "KB_AUTH_TOKEN") as [[|c t]|];
    try (cbn; repeat split; left; reflexivity).
  destruct (denied sql); [cbn; repeat split; left; reflexivity |].
  unfold try_except. rewrite query_attempt_eq. cbn.
  assert (Hlog : forall req : http_request,
             environ (log (HttpPost req) w) = environ w /\
             remote (log (HttpPost req) w) = remote w /\
             (trace (log (HttpPost req) w) = trace w \/
              exists r, trace (log (HttpPost req) w) = HttpPost r :: trace w)).
  { intros req. cbn. repeat split. right. exists req. reflexivity. }
  destruct (post_reply _ _ _) as [[[data|e]]|e]; cbn.
  - destruct data; cbn; try apply Hlog.
    destruct (orb _ _); cbn; apply Hlog.
  - destruct e; cbn; apply Hlog.
  - destruct e; cbn; apply Hlog.
Qed.

(** The result of [query_berdl] depends on the world only through the
    credential and the reply to its one POST. *)
Lemma query_berdl_result_eq (sql : string) (w1 w2 : World) :
  environ w1 !! "KB_AUTH_TOKEN" = environ w2 !! "KB_AUTH_TOKEN" ->
  (forall req, post_reply (remote w1) (trace w1) req
               = post_reply (remote w2) (trace w2) req) ->
  fst (query_berdl sql w1) = fst (query_berdl sql w2).
Proof.
  intros Henv Hreply. rewrite !query_berdl_eq, <- Henv.
  destruct (environ w1 !! "KB_AUTH_TOKEN") as [[|c t]|]; try reflexivity.
  destruct (denied sql); [reflexivity |].
  unfold try_except. rewrite !query_attempt_eq, Hreply. cbn.
  destruct (post_reply _ _ _) as [[[data|e]]|e]; cbn.
  - destruct data; cbn; try reflexivity. destruct (orb _ _); reflexivity.
  - destruct e; reflexivity.
  - destruct e; reflexivity.
Qed.

(** A query that reaches the network: what [query_berdl] returns is what
    the [try] block returns or what its handlers make of the exception. *)
Lemma query_berdl_sends (sql token : string) (w : World) :
  environ w !! "KB_AUTH_TOKEN" = Some token -> token <> EmptyString ->
  denied sql = false ->
  query_berdl sql w = try_except (query_attempt token sql) query_handler w.
Proof.
  intros Henv Hne Hok. rewrite query_berdl_eq, Henv, Hok.
  destruct token; [congruence | reflexivity].
Qed.

(** ** The query executor *)

(** C1.  Whenever the upper-cased SQL holds one of [DROP], [DELETE],
    [UPDATE], [INSERT], [ALTER] as a substring, [query_berdl] returns an
    error envelope and leaves the world as it found it: no call is
    logged.  The scan is textual, so the keyword need not be a statement
    of its own (see [denied_any_case], and the sample query, a [SELECT]
    over a column named [last_updated]). *)
Theorem query_berdl_rejects_keywords (sql : string) (w : World) :
  (exists keyword, In keyword keywords /\ Str.occurs_in keyword (Str.upper sql)) ->
  exists msg : string,
    query_berdl sql w = (Return (error_envelope (VStr msg)), w).
Proof.
  intros H. apply denied_spec in H.
  rewrite query_berdl_eq, H.
  destruct (environ w !! "KB_AUTH_TOKEN") as [[|c t]|]; eauto.
Qed.

Lemma query_berdl_rejects_keywords_witness :
  let sql := "SELECT last_updated FROM nmdc_core.study_table" in
  let w := fresh full_env (mock (body (VDict one_row)) (says "ok")) in
  exists msg : string,
    query_berdl sql w = (Return (error_envelope (VStr msg)), w).
Proof.
  apply query_berdl_rejects_keywords.
  exists "UPDATE". split.
  - simpl. tauto.
  - exists "SELECT LAST_", "D FROM NMDC_CORE.STUDY_TABLE". reflexivity.
Defined.

(** C3.  With [KB_AUTH_TOKEN] unset, [query_berdl] returns the envelope
    with the message [KB_AUTH_TOKEN not set in .env] for every SQL
    string, and the world is unchanged: no call is logged. *)
Theorem query_berdl_missing_token (sql : string) (w : World) :
  environ w !! "KB_AUTH_TOKEN" = None ->
  query_berdl sql w
  = (Return (error_envelope (VStr "KB_AUTH_TOKEN not set in .env")), w).
Proof. intros H. now rewrite query_berdl_eq, H. Qed.

Lemma query_berdl_missing_token_witness :
  let w := fresh no_env (mock (body (VDict one_row)) (says "ok")) in
  environ w !! "KB_AUTH_TOKEN" = None /\
  query_berdl "SELECT 1 as test" w
  = (Return (error_envelope (VStr "KB_AUTH_TOKEN not set in .env")), w).
Proof.
  split; [reflexivity |].
  apply query_berdl_missing_token. reflexivity.
Defined.

(** An empty token counts as missing too. *)
Lemma query_berdl_empty_token (sql : string) (w : World) :
  environ w !! "KB_AUTH_TOKEN" = Some EmptyString ->
  query_berdl sql w
  = (Return (error_envelope (VStr "KB_AUTH_TOKEN not set in .env")), w).
Proof. intros H. now rewrite query_berdl_eq, H. Qed.

(** An envelope [{"error": m}] that is not produced by the error branch
    cannot be mistaken for one: its own [error] field would be truthy. *)
Lemma verbatim_is_not_error_envelope (d : dict) :
  VDict d = error_envelope (message_or_fallback (VDict d)) ->
  reports_error (VDict d) = true.
Proof.
  unfold error_envelope. intros H. injection H as H.
  rewrite H at 1. cbn. rewrite H. reflexivity.
Qed.

(** C4, as amended.  When the decoded body is a JSON object,
    [query_berdl] returns [{"error": message-or-fallback}] exactly when
    the object has a truthy [error] or [error_type] field, and the body
    itself otherwise.  A decoded body of any other type has no [get]:
    the [AttributeError] is caught and its text is the error. *)
Theorem query_berdl_response (sql token : string) (w : World) (data : value) :
  environ w !! "KB_AUTH_TOKEN" = Some token -> token <> EmptyString ->
  denied sql = false ->
  post_reply (remote w) (trace w) (query_request token sql) = body data ->
  let result := fst (query_berdl sql w) in
  match data with
  | VDict d =>
      result = Return (spec_response_handling data) /\
      (result = Return (error_envelope (message_or_fallback data))
       <-> reports_error data = true)
  | _ =>
      result = Return (error_envelope
                         (VStr ("'" +:+ type_name data +:+ "' object has no attribute 'get'")))
  end.
Proof.
  intros Henv Hne Hok Hreply.
  rewrite (query_berdl_sends sql token w Henv Hne Hok).
  unfold try_except. rewrite query_attempt_eq, Hreply. cbn.
  destruct data; try reflexivity.
  unfold spec_response_handling. cbn.
  destruct (orb _ _) eqn:E; cbn.
  - split; [reflexivity | tauto].
  - split; [reflexivity |]. split; [| discriminate].
    intros H.
    assert (H' : VDict d = error_envelope (message_or_fallback (VDict d)))
      by (cbn; congruence).
    apply verbatim_is_not_error_envelope in H'. cbn in H'. congruence.
Qed.

Lemma query_berdl_response_witness :
  let w := fresh full_env (mock (body (VDict one_row)) (says "ok")) in
  fst (query_berdl "SELECT 1" w) = Return (VDict one_row) /\
  (fst (query_berdl "SELECT 1" w)
     = Return (error_envelope (message_or_fallback (VDict one_row)))
   <-> reports_error (VDict one_row) = true).
Proof.
  apply (query_berdl_response "SELECT 1" "secret-token"
           (fresh full_env (mock (body (VDict one_row)) (says "ok")))
           (VDict one_row)).
  - reflexivity.
  - discriminate.
  - reflexivity.
  - reflexivity.
Defined.

(** C4, as stated, fails on a body that is valid JSON and not an
    object: for the body [[]] the claim promises [[]] back, and the
    code returns an error envelope. *)
Lemma query_berdl_response_counterexample :
  let w := fresh full_env (mock (body (VList [])) (says "ok")) in
  environ w !! "KB_AUTH_TOKEN" = Some "secret-token" /\
  denied "SELECT 1" = false /\
  reports_error (VList []) = false /\
  spec_response_handling (VList []) = VList [] /\
  fst (query_berdl "SELECT 1" w)
  = Return (error_envelope (VStr "'list' object has no attribute 'get'")) /\
  fst (query_berdl "SELECT 1" w) <> Return (spec_response_handling (VList [])).
Proof. repeat split; try reflexivity. discriminate. Qed.

(** C5.  When the POST raises, [query_berdl] returns an error envelope:
    for a timeout the fixed text [Query timed out after 30 seconds],
    whatever the timeout's own message; for any other exception its
    [str]. *)
Theorem query_berdl_transport_failure (sql token : string) (w : World) (e : exn) :
  environ w !! "KB_AUTH_TOKEN" = Some token -> token <> EmptyString ->
  denied sql = false ->
  post_reply (remote w) (trace w) (query_request token sql) = Raise e ->
  fst (query_berdl sql w)
  = Return (error_envelope
              (VStr match e with
                    | TimeoutException _ => "Query timed out after 30 seconds"
                    | OtherException _ msg => msg
                    end)).
Proof.
  intros Henv Hne Hok Hreply.
  rewrite (query_berdl_sends sql token w Henv Hne Hok).
  unfold try_except. rewrite query_attempt_eq, Hreply. cbn.
  destruct e; reflexivity.
Qed.

Lemma query_berdl_transport_failure_witness :
  let timeout := TimeoutException "The read operation timed out" in
  let refused := OtherException "ConnectError" "[Errno 111] Connection refused" in
  fst (query_berdl "SELECT 1" (fresh full_env (mock (Raise timeout) (says "ok"))))
  = Return (error_envelope (VStr "Query timed out after 30 seconds")) /\
  fst (query_berdl "SELECT 1" (fresh full_env (mock (Raise refused) (says "ok"))))
  = Return (error_envelope (VStr "[Errno 111] Connection refused")).
Proof.
  split.
  - apply (query_berdl_transport_failure "SELECT 1" "secret-token"
             (fresh full_env (mock (Raise (TimeoutException "The read operation timed out"))
                                   (says "ok")))
             (TimeoutException "The read operation timed out"));
      [reflexivity | discriminate | reflexivity | reflexivity].
  - apply (query_berdl_transport_failure "SELECT 1" "secret-token"
             (fresh full_env
                (mock (Raise (OtherException "ConnectError" "[Errno 111] Connection refused"))
                      (says "ok")))
             (OtherException "ConnectError" "[Errno 111] Connection refused"));
      [reflexivity | discriminate | reflexivity | reflexivity].
Defined.

(** C6.  Two calls in a row with the same SQL, the second in the world
    the first one left, return the same envelope whenever the remote
    answers the second call as it answered the first; the environment
    and the remote are the same after both. *)
Theorem query_berdl_twice (sql : string) (w : World) :
  let first := query_berdl sql w in
  let second := query_berdl sql (snd first) in
  (forall req, post_reply (remote w) (trace (snd first)) req
               = post_reply (remote w) (trace w) req) ->
  fst second = fst first /\
  environ (snd second) = environ w /\
  remote (snd second) = remote w.
Proof.
  intros first second Hsame.
  destruct (query_berdl_world sql w) as (Henv & Hrem & _).
  destruct (query_berdl_world sql (snd first)) as (Henv' & Hrem' & _).
  fold first in Henv, Hrem, Henv', Hrem'. fold second in Henv', Hrem'.
  split; [| split; congruence].
  apply query_berdl_result_eq.
  - now rewrite Henv.
  - intros req. rewrite Hrem. apply Hsame.
Qed.

Lemma query_berdl_twice_witness :
  let w := fresh full_env (mock (body (VDict one_row)) (says "ok")) in
  fst (query_berdl "SELECT 1" (snd (query_berdl "SELECT 1" w)))
  = fst (query_berdl "SELECT 1" w) /\
  environ (snd (query_berdl "SELECT 1" (snd (query_berdl "SELECT 1" w)))) = environ w /\
  remote (snd (query_berdl "SELECT 1" (snd (query_berdl "SELECT 1" w)))) = remote w.
Proof.
  apply (query_berdl_twice "SELECT 1"
           (fresh full_env (mock (body (VDict one_row)) (says "ok")))).
  intros req. reflexivity.
Defined.

(** A remote that answers the second call differently gives a
    different envelope: the executor keeps no copy of the first answer. *)
Example flaky_remote_changes_envelope :
  let flaky := {| post_reply := fun history _ =>
                                  match history with
                                  | [] => body (VDict one_row)
                                  | _ => Raise (TimeoutException "timed out")
                                  end;
                  create_reply := fun _ _ => says "ok" |} in
  let w := fresh full_env flaky in
  fst (query_berdl "SELECT 1" (snd (query_berdl "SELECT 1" w)))
  <> fst (query_berdl "SELECT 1" w).
Proof. cbv zeta. vm_compute. discriminate. Qed.

(** C10.  [query_berdl] always returns, and what it returns is a
    [dict]: every exception of the [try] block is caught.  An exception
    other than a timeout raised anywhere in the block becomes
    [{"error": str(e)}], and a body that does not decode is such an
    exception. *)
Theorem query_berdl_total (sql : string) (w : World) :
  (exists d : dict, fst (query_berdl sql w) = Return (VDict d)) /\
  (forall token cls msg,
      environ w !! "KB_AUTH_TOKEN" = Some token -> token <> EmptyString ->
      denied sql = false ->
      fst (query_attempt token sql w) = Raise (OtherException cls msg) ->
      fst (query_berdl sql w) = Return (error_envelope (VStr msg))) /\
  (forall token e,
      post_reply (remote w) (trace w) (query_request token sql)
      = Return {| json := Raise e |} ->
      fst (query_attempt token sql w) = Raise e).
Proof.
  split; [| split].
  - rewrite query_berdl_eq.
    destruct (environ w !! "KB_AUTH_TOKEN") as [[|c t]|];
      try (eexists; reflexivity).
    destruct (denied sql); [eexists; reflexivity |].
    unfold try_except. rewrite query_attempt_eq. cbn.
    destruct (post_reply _ _ _) as [[[data|e]]|e]; cbn.
    + destruct data; try (eexists; reflexivity).
      destruct (orb _ _); eexists; reflexivity.
    + destruct e; eexists; reflexivity.
    + destruct e; eexists; reflexivity.
  - intros token cls msg Henv Hne Hok Hraise.
    rewrite (query_berdl_sends sql token w Henv Hne Hok).
    unfold try_except.
    destruct (query_attempt token sql w) as [[v|e] w'] eqn:E; cbn in Hraise.
    + discriminate.
    + injection Hraise as ->. reflexivity.
  - intros token e Hreply. rewrite query_attempt_eq, Hreply. reflexivity.
Qed.

Lemma query_berdl_total_witness :
  let not_json := OtherException "JSONDecodeError"
                    "Expecting value: line 1 column 1 (char 0)" in
  let w := fresh full_env (mock (Return {| json := Raise not_json |}) (says "ok")) in
  fst (query_berdl "SELECT 1" w)
  = Return (error_envelope (VStr "Expecting value: line 1 column 1 (char 0)")).
Proof.
  intros not_json w.
  destruct (query_berdl_total "SELECT 1" w) as (_ & Hcaught & Hdecode).
  apply (Hcaught "secret-token" "JSONDecodeError");
    [reflexivity | discriminate | reflexivity |].
  apply Hdecode. reflexivity.
Defined.

(** ** The SQL generator *)

(** C7.  With [ANTHROPIC_API_KEY] unset, [generate_sql] returns (it does
    not raise) a fixed string that is an SQL comment naming the missing
    credential, and the world is unchanged: the language model is not
    called. *)
Theorem generate_sql_missing_key (user_question : string) (w : World) :
  environ w !! "ANTHROPIC_API_KEY" = None ->
  generate_sql user_question w = (Return "-- Error: ANTHROPIC_API_KEY not set", w) /\
  Str.startswith "--" "-- Error: ANTHROPIC_API_KEY not set" = true.
Proof.
  intros H. split; [| reflexivity].
  unfold generate_sql, bind, getenv. now rewrite H.
Qed.

Lemma generate_sql_missing_key_witness :
  let w := fresh no_env (mock (body (VDict one_row)) (says "SELECT 1")) in
  generate_sql "How many samples have plastic degradation?" w
  = (Return "-- Error: ANTHROPIC_API_KEY not set", w).
Proof.
  apply (generate_sql_missing_key "How many samples have plastic degradation?").
  reflexivity.
Defined.

(** With the key set the model is asked once, with the fixed schema
    prompt, and its first text block comes back stripped. *)
Lemma generate_sql_asks (user_question key : string) (w : World) :
  environ w !! "ANTHROPIC_API_KEY" = Some key -> key <> EmptyString ->
  let req := generate_request key user_question in
  generate_sql user_question w
  = match create_reply (remote w) (trace w) req with
    | Return content => first_text content (log (MessagesCreate req) w)
    | Raise e => (Raise e, log (MessagesCreate req) w)
    end.
Proof.
  intros Henv Hne. unfold generate_sql, bind, getenv, messages_create.
  rewrite Henv. destruct key; [congruence | reflexivity].
Qed.

(** ** The result explainer *)

Section ExplainProperties.

Variable float_repr : spec_float -> string.

Lemma explain_results_eq (question sql : string) (results : dict) (w : World) :
  explain_results float_repr question sql results w =
  match environ w !! "ANTHROPIC_API_KEY" with
  | None | Some EmptyString => (Return "Error: ANTHROPIC_API_KEY not set", w)
  | Some key =>
      match dict_lookup results "error" with
      | Some err => (Return ("**Query failed:** " +:+ str float_repr err), w)
      | None => explain_call float_repr key question sql results w
      end
  end.
Proof.
  unfold explain_results, bind, getenv, ret.
  destruct (environ w !! "ANTHROPIC_API_KEY") as [[|c t]|]; try reflexivity.
  destruct (dict_lookup results "error"); reflexivity.
Qed.

(** C9.  The credential is checked first: with [ANTHROPIC_API_KEY]
    unset, [explain_results] returns [Error: ANTHROPIC_API_KEY not set]
    for every envelope, also for one with an [error] key, and that
    string holds no [Query failed]. *)
Theorem explain_results_missing_key (question sql : string) (results : dict) (w : World) :
  environ w !! "ANTHROPIC_API_KEY" = None ->
  explain_results float_repr question sql results w
  = (Return "Error: ANTHROPIC_API_KEY not set", w) /\
  Str.contains "Query failed" "Error: ANTHROPIC_API_KEY not set" = false.
Proof.
  intros H. split; [| reflexivity].
  now rewrite explain_results_eq, H.
Qed.

(** C2, as amended.  With [ANTHROPIC_API_KEY] set, an envelope that has
    an [error] key makes [explain_results] return the marker
    [**Query failed:** ] followed by the printed error, and the world is
    unchanged: the language model is not called. *)
Theorem explain_results_query_failed
    (question sql key : string) (results : dict) (err : value) (w : World) :
  environ w !! "ANTHROPIC_API_KEY" = Some key -> key <> EmptyString ->
  dict_lookup results "error" = Some err ->
  let answer := "**Query failed:** " +:+ str float_repr err in
  explain_results float_repr question sql results w = (Return answer, w) /\
  Str.startswith "**Query failed:** " answer = true /\
  Str.occurs_in (str float_repr err) answer.
Proof.
  intros Henv Hne Herr answer. split; [| split].
  - rewrite explain_results_eq, Henv, Herr.
    destruct key; [congruence | reflexivity].
  - apply startswith_app.
  - exists "**Query failed:** ", EmptyString.
    unfold answer. f_equal. clear. induction (str float_repr err) as [|c s IH].
    + reflexivity.
    + rewrite append_cons. now f_equal.
Qed.

(** C8, as amended.  With [ANTHROPIC_API_KEY] set, for an envelope
    without [error] key whose [result] is a list (or absent) and whose
    [pagination] is a mapping (or absent), [explain_results] sends one
    request to the language model.  Its prompt shows the first 10 rows
    at most and, as the total, the [total_count] of the pagination or,
    without one, the number of rows; with no rows and no pagination
    these are [[]] and [0].  The answer is the first text block of the
    model's reply, stripped. *)
Theorem explain_results_request
    (question sql key : string) (results : dict) (rows : list value) (p : dict)
    (w : World) :
  environ w !! "ANTHROPIC_API_KEY" = Some key -> key <> EmptyString ->
  dict_lookup results "error" = None ->
  dict_get results "result" (VList []) = VList rows ->
  dict_get results "pagination" (VDict []) = VDict p ->
  let sample := firstn 10 rows in
  let total := dict_get p "total_count" (VInt (Z.of_nat (length rows))) in
  let req := explain_request key
               (explain_prompt question sql (str float_repr total)
                  (str float_repr (VList sample))) in
  (length sample <= 10)%nat /\
  (exists rest, rows = sample ++ rest) /\
  explain_results float_repr question sql results w
  = match create_reply (remote w) (trace w) req with
    | Return content => first_text content (log (MessagesCreate req) w)
    | Raise e => (Raise e, log (MessagesCreate req) w)
    end /\
  trace (snd (explain_results float_repr question sql results w))
  = MessagesCreate req :: trace w /\
  (forall text rest,
      create_reply (remote w) (trace w) req = Return (TextBlock text :: rest) ->
      fst (explain_results float_repr question sql results w)
      = Return (Str.strip text)) /\
  (rows = [] -> p = [] ->
   req = explain_request key (explain_prompt question sql "0" "[]")).
Proof.
  intros Henv Hne Herr Hres Hpag sample total req.
  assert (Hrun : explain_results float_repr question sql results w
                 = match create_reply (remote w) (trace w) req with
                   | Return content => first_text content (log (MessagesCreate req) w)
                   | Raise e => (Raise e, log (MessagesCreate req) w)
                   end).
  { rewrite explain_results_eq, Henv, Herr.
    destruct key as [|c key']; [congruence |].
    unfold explain_call. cbv zeta. rewrite Hres, Hpag.
    unfold bind, slice10, get_method, len, ret, messages_create.
    reflexivity. }
  split; [| split; [| split; [| split; [| split]]]].
  - unfold sample. rewrite length_take. lia.
  - exists (skipn 10 rows). unfold sample. symmetry. apply firstn_skipn.
  - exact Hrun.
  - rewrite Hrun. destruct (create_reply _ _ _) as [content|e]; [| reflexivity].
    destruct content as [|[text|cls] content]; reflexivity.
  - intros text rest Hreply. rewrite Hrun, Hreply. reflexivity.
  - intros Hrows Hp. unfold req, total, sample. rewrite Hrows, Hp. reflexivity.
Qed.

End ExplainProperties.

Lemma explain_results_missing_key_witness :
  let results := [("error", VStr "Only SELECT queries are allowed")] in
  let w := fresh no_env (mock (body (VDict one_row)) (says "ok")) in
  explain_results sample_float_repr "Drop everything?" "DROP TABLE t" results w
  = (Return "Error: ANTHROPIC_API_KEY not set", w) /\
  Str.contains "Query failed" "Error: ANTHROPIC_API_KEY not set" = false.
Proof.
  apply (explain_results_missing_key sample_float_repr "Drop everything?" "DROP TABLE t").
  reflexivity.
Defined.

Lemma explain_results_query_failed_witness :
  let results := [("error", VStr "Only SELECT queries are allowed")] in
  let w := fresh full_env (mock (body (VDict one_row)) (says "ok")) in
  explain_results sample_float_repr "Drop everything?" "DROP TABLE t" results w
  = (Return "**Query failed:** Only SELECT queries are allowed", w).
Proof.
  intros results w.
  apply (explain_results_query_failed sample_float_repr
           "Drop everything?" "DROP TABLE t" "secret-key" results
           (VStr "Only SELECT queries are allowed") w);
    [reflexivity | discriminate | reflexivity].
Defined.

(** C2, as stated, fails when [ANTHROPIC_API_KEY] is unset: the envelope
    has an [error] key, and the answer neither begins with the marker
    nor holds the error's message. *)
Lemma explain_results_query_failed_counterexample :
  let results := [("error", VStr "Only SELECT queries are allowed")] in
  let w := fresh no_env (mock (body (VDict one_row)) (says "ok")) in
  let answer := "Error: ANTHROPIC_API_KEY not set" in
  dict_mem "error" results = true /\
  explain_results sample_float_repr "Drop everything?" "DROP TABLE t" results w
  = (Return answer, w) /\
  Str.startswith "**Query failed:** " answer = false /\
  Str.contains "Query failed" answer = false /\
  Str.contains "Only SELECT queries are allowed" answer = false.
Proof. repeat split; reflexivity. Qed.

Lemma explain_results_request_witness :
  let no_rows := [("result", VList [])] in
  let w := fresh full_env (mock (body (VDict no_rows)) (says " Nothing was found. ")) in
  let req := explain_request "secret-key"
               (explain_prompt "Any methanogens?" "SELECT 1" "0" "[]") in
  explain_results sample_float_repr "Any methanogens?" "SELECT 1" no_rows w
  = (Return "Nothing was found.", log (MessagesCreate req) w).
Proof.
  intros no_rows w req.
  destruct (explain_results_request sample_float_repr
              "Any methanogens?" "SELECT 1" "secret-key" no_rows [] [] w)
    as (_ & _ & Hrun & _ & _ & Hzero);
    [reflexivity | discriminate | reflexivity | reflexivity | reflexivity |].
  rewrite Hrun, (Hzero eq_refl eq_refl). reflexivity.
Defined.

(** C8, as stated, fails in three ways, each for an envelope without
    [error] key.  With [ANTHROPIC_API_KEY] unset nothing is extracted
    and no request is sent, also for zero rows.  With the key set, a
    [result] that is not a sequence and a [pagination] that is not a
    mapping raise before any request. *)
Lemma explain_results_request_counterexample :
  let m := mock (body (VDict one_row)) (says "ok") in
  let run := explain_results sample_float_repr "Any methanogens?" "SELECT 1" in
  (dict_mem "error" [("result", VList [])] = false /\
   run [("result", VList [])] (fresh no_env m)
   = (Return "Error: ANTHROPIC_API_KEY not set", fresh no_env m) /\
   trace (snd (run [("result", VList [])] (fresh no_env m))) = []) /\
  run [("result", VNone)] (fresh full_env m)
  = (Raise (OtherException "TypeError" "'NoneType' object is not subscriptable"),
     fresh full_env m) /\
  run [("result", VList []); ("pagination", VNone)] (fresh full_env m)
  = (Raise (OtherException "AttributeError" "'NoneType' object has no attribute 'get'"),
     fresh full_env m).
Proof. repeat split; reflexivity. Qed.

(** The round trip of the specification: the one-row envelope reaches
    the model with the question verbatim, the row sample and the total
    of the pagination. *)
Example explain_results_round_trip :
  let question := "How many samples have plastic degradation?" in
  let sql := "SELECT COUNT(*) AS count FROM nmdc_core.trait_features" in
  let w := fresh full_env (mock (body (VDict one_row)) (says "We found 42 samples.")) in
  explain_results sample_float_repr question sql one_row w
  = (Return "We found 42 samples.",
     log (MessagesCreate
            (explain_request "secret-key"
               (explain_prompt question sql "1" "[{'count': 42}]"))) w).
Proof. reflexivity. Qed.

(** A whole turn with nothing configured: the sentinel of the generator
    is sent to the executor, which stops at its own credential, and the
    explainer stops at the language-model credential. *)
Example turn_without_credentials :
  let w := fresh no_env (mock (body (VDict one_row)) (says "ok")) in
  generate_sql "What kingdoms are in the taxonomy?" w
  = (Return "-- Error: ANTHROPIC_API_KEY not set", w) /\
  query_berdl "-- Error: ANTHROPIC_API_KEY not set" w
  = (Return (error_envelope (VStr "KB_AUTH_TOKEN not set in .env")), w) /\
  explain_results sample_float_repr "What kingdoms are in the taxonomy?"
    "-- Error: ANTHROPIC_API_KEY not set"
    [("error", VStr "KB_AUTH_TOKEN not set in .env")] w
  = (Return "Error: ANTHROPIC_API_KEY not set", w).
Proof. repeat split; reflexivity. Qed.

(** * Further properties *)

(** ** Stripping *)

Lemma lstrip_blank (s : string) : Str.lstrip s = EmptyString <-> Str.blank s = true.
Proof.
  induction s as [|c s IH]; simpl; [tauto |].
  destruct (Str.isspace c); simpl; [exact IH |].
  split; discriminate.
Qed.

Lemma rstrip_blank (s : string) : Str.rstrip s = EmptyString <-> Str.blank s = true.
Proof.
  induction s as [|c s IH]; simpl; [tauto |].
  destruct (Str.rstrip s) eqn:E.
  - destruct (Str.isspace c); simpl.
    + split; [intros _; now apply IH | reflexivity].
    + split; discriminate.
  - split; [discriminate |].
    intros H. apply andb_true_iff in H as [_ H]. apply IH in H. discriminate.
Qed.

Lemma blank_lstrip (s : string) : Str.blank (Str.lstrip s) = Str.blank s.
Proof.
  induction s as [|c s IH]; simpl; [reflexivity |].
  destruct (Str.isspace c) eqn:E; simpl; [exact IH |].
  now rewrite E.
Qed.

(** [strip] leaves nothing exactly of the strings made of white space. *)
Lemma strip_blank (s : string) : Str.strip s = EmptyString <-> Str.blank s = true.
Proof.
  unfold Str.strip. rewrite rstrip_blank, blank_lstrip. tauto.
Qed.

Lemma lstrip_first (s : string) :
  forall c, Str.first_char (Str.lstrip s) = Some c -> Str.isspace c = false.
Proof.
  induction s as [|a s IH]; simpl; intros c H; [discriminate |].
  destruct (Str.isspace a) eqn:E; [now apply IH |].
  simpl in H. congruence.
Qed.

Lemma rstrip_first_inv (s : string) (c : ascii) :
  Str.first_char (Str.rstrip s) = Some c -> Str.first_char s = Some c.
Proof.
  destruct s as [|a s]; simpl; [discriminate |].
  destruct (Str.rstrip s); [destruct (Str.isspace a); [discriminate |] |]; tauto.
Qed.

Lemma rstrip_last (s : string) :
  forall c, Str.last_char (Str.rstrip s) = Some c -> Str.isspace c = false.
Proof.
  induction s as [|a s IH]; simpl; intros c H; [discriminate |].
  destruct (Str.rstrip s) as [|b r] eqn:E.
  - destruct (Str.isspace a) eqn:Ea; simpl in H; [discriminate | congruence].
  - apply IH. exact H.
Qed.

(** A stripped string neither starts nor ends with white space. *)
Lemma strip_ends (s : string) :
  (forall c, Str.first_char (Str.strip s) = Some c -> Str.isspace c = false) /\
  (forall c, Str.last_char (Str.strip s) = Some c -> Str.isspace c = false).
Proof.
  unfold Str.strip. split; intros c H.
  - apply rstrip_first_inv in H. now apply lstrip_first in H.
  - now apply rstrip_last in H.
Qed.

(** ** Calls and the log *)

Lemma log_neq (e : event) (w : World) : log e w <> w.
Proof.
  intros H. apply (f_equal trace) in H. apply (f_equal length) in H.
  cbn in H. lia.
Qed.

Lemma log_environ (e : event) (w : World) : environ (log e w) = environ w.
Proof. reflexivity. Qed.

Lemma log_remote (e : event) (w : World) : remote (log e w) = remote w.
Proof. reflexivity. Qed.

Lemma not_denied_spec (sql : string) :
  denied sql = false <->
  forall keyword, In keyword keywords -> ~ Str.occurs_in keyword (Str.upper sql).
Proof.
  split.
  - intros H keyword Hin Hocc.
    assert (denied sql = true) by (apply denied_spec; eauto). congruence.
  - intros H. destruct (denied sql) eqn:E; [| reflexivity].
    apply denied_spec in E as (keyword & Hin & Hocc). now destruct (H keyword Hin).
Qed.

Lemma query_attempt_world (token sql : string) (w : World) :
  snd (query_attempt token sql w) = log (HttpPost (query_request token sql)) w.
Proof.
  rewrite query_attempt_eq. cbn.
  destruct (post_reply _ _ _) as [[[data|e]]|e]; cbn; try reflexivity.
  destruct data; try reflexivity. destruct (orb _ _); reflexivity.
Qed.

Lemma try_except_query_world (token sql : string) (w : World) :
  snd (try_except (query_attempt token sql) query_handler w)
  = log (HttpPost (query_request token sql)) w.
Proof.
  unfold try_except. pose proof (query_attempt_world token sql w) as H.
  destruct (query_attempt token sql w) as [[v|e] w']; cbn in *; [exact H |].
  destruct e; exact H.
Qed.

(** The world after [query_berdl]: one POST more, or the same. *)
Lemma query_berdl_sent_or_not (sql : string) (w : World) :
  let w' := snd (query_berdl sql w) in
  (exists token,
      environ w !! "KB_AUTH_TOKEN" = Some token /\ token <> EmptyString /\
      (forall keyword, In keyword keywords -> ~ Str.occurs_in keyword (Str.upper sql)) /\
      w' = log (HttpPost {| url := BERDL_API_URL;
                            authorization := "Bearer " +:+ token;
                            content_type := "application/json";
                            body_query := sql;
                            body_limit := 100;
                            timeout_s := 30 |}) w /\
      w' <> w)
  \/
  ((environ w !! "KB_AUTH_TOKEN" = None \/
    environ w !! "KB_AUTH_TOKEN" = Some EmptyString \/
    exists keyword, In keyword keywords /\ Str.occurs_in keyword (Str.upper sql)) /\
   w' = w).
Proof.
  cbv zeta. rewrite query_berdl_eq.
  destruct (environ w !! "KB_AUTH_TOKEN") as [[|c t]|] eqn:Henv.
  - right. split; [right; left; reflexivity | reflexivity].
  - destruct (denied sql) eqn:Hd.
    + right. split; [| reflexivity]. right. right. now apply denied_spec.
    + left. exists (String c t). rewrite try_except_query_world.
      repeat split; try discriminate.
      * now apply not_denied_spec.
      * apply log_neq.
  - right. split; [left; reflexivity | reflexivity].
Qed.

(** Every call of [query_berdl] returns a [dict]. *)
Lemma query_berdl_returns_dict (sql : string) (w : World) :
  exists d : dict, fst (query_berdl sql w) = Return (VDict d).
Proof.
  rewrite query_berdl_eq.
  destruct (environ w !! "KB_AUTH_TOKEN") as [[|c t]|];
    try (eexists; reflexivity).
  destruct (denied sql); [eexists; reflexivity |].
  unfold try_except. rewrite query_attempt_eq. cbn.
  destruct (post_reply _ _ _) as [[[data|e]]|e]; cbn.
  - destruct data; try (eexists; reflexivity).
    destruct (orb _ _); eexists; reflexivity.
  - destruct e; eexists; reflexivity.
  - destruct e; eexists; reflexivity.
Qed.

(** A call of [query_berdl] that stops before the network returns an
    error envelope. *)
Lemma query_berdl_unsent (sql : string) (w : World) :
  snd (query_berdl sql w) = w ->
  exists msg, fst (query_berdl sql w) = Return (error_envelope (VStr msg)).
Proof.
  rewrite query_berdl_eq.
  destruct (environ w !! "KB_AUTH_TOKEN") as [[|c t]|];
    try (intros _; eexists; reflexivity).
  destruct (denied sql); [intros _; eexists; reflexivity |].
  rewrite try_except_query_world. intros H. now apply log_neq in H.
Qed.

Lemma generate_sql_world (user_question : string) (w : World) :
  (exists key, environ w !! "ANTHROPIC_API_KEY" = Some key /\ key <> EmptyString /\
               snd (generate_sql user_question w)
               = log (MessagesCreate (generate_request key user_question)) w)
  \/
  ((environ w !! "ANTHROPIC_API_KEY" = None \/
    environ w !! "ANTHROPIC_API_KEY" = Some EmptyString) /\
   generate_sql user_question w = (Return "-- Error: ANTHROPIC_API_KEY not set", w)).
Proof.
  unfold generate_sql, bind, getenv, messages_create.
  destruct (environ w !! "ANTHROPIC_API_KEY") as [[|c t]|] eqn:Henv.
  - right. split; [right |]; reflexivity.
  - left. exists (String c t). repeat split; try discriminate.
    destruct (create_reply _ _ _) as [content|e]; [| reflexivity].
    destruct content as [|[text|cls] content]; reflexivity.
  - right. split; [left |]; reflexivity.
Qed.

(** ** More on the explainer and the generator *)

Section CallProperties.

Variable float_repr : spec_float -> string.

(** What [explain_call] does, by the shape of [result] and
    [pagination]. *)
Lemma explain_call_eq (key question sql : string) (results : dict) (w : World) :
  explain_call float_repr key question sql results w =
  match dict_get results "result" (VList []), dict_get results "pagination" (VDict []) with
  | VList rows, VDict p =>
      let req := explain_request key
                   (explain_prompt question sql
                      (str float_repr
                         (dict_get p "total_count" (VInt (Z.of_nat (length rows)))))
                      (str float_repr (VList (firstn 10 rows)))) in
      match create_reply (remote w) (trace w) req with
      | Return content => first_text content (log (MessagesCreate req) w)
      | Raise e => (Raise e, log (MessagesCreate req) w)
      end
  | VStr text, VDict p =>
      let req := explain_request key
                   (explain_prompt question sql
                      (str float_repr
                         (dict_get p "total_count" (VInt (Z.of_nat (String.length text)))))
                      (Str.take 10 text)) in
      match create_reply (remote w) (trace w) req with
      | Return content => first_text content (log (MessagesCreate req) w)
      | Raise e => (Raise e, log (MessagesCreate req) w)
      end
  | VList _, other | VStr _, other => (Raise (AttributeError (type_name other) "get"), w)
  | VDict _, _ => (Raise (OtherException "KeyError" "slice(None, 10, None)"), w)
  | other, _ =>
      (Raise (OtherException "TypeError"
                ("'" +:+ type_name other +:+ "' object is not subscriptable")), w)
  end.
Proof.
  unfold explain_call. cbv zeta.
  destruct (dict_get results "result" (VList [])) as [| | | | text|rows|d];
    try reflexivity;
    destruct (dict_get results "pagination" (VDict [])); reflexivity.
Qed.

Lemma first_text_world (content : list content_block) (w : World) :
  snd (first_text content w) = w.
Proof. destruct content as [|[text|cls] content]; reflexivity. Qed.

(** X2.  [explain_results] calls the language model at most once, and
    calls it exactly when the key is set, the envelope has no [error]
    key, [result] is a list or a string (or absent) and [pagination] is
    a mapping (or absent).  In every other case the world is untouched,
    whether the function returns or raises. *)
Theorem explain_results_asks_iff (question sql : string) (results : dict) (w : World) :
  let w' := snd (explain_results float_repr question sql results w) in
  ((exists req, w' = log (MessagesCreate req) w) \/ w' = w) /\
  (w' <> w <->
   (exists key, environ w !! "ANTHROPIC_API_KEY" = Some key /\ key <> EmptyString) /\
   dict_lookup results "error" = None /\
   ((exists rows, dict_get results "result" (VList []) = VList rows) \/
    (exists text, dict_get results "result" (VList []) = VStr text)) /\
   (exists p, dict_get results "pagination" (VDict []) = VDict p)).
Proof.
  cbv zeta. rewrite explain_results_eq.
  assert (Hstay : forall P : Prop, (w <> w <-> P) <-> ~ P) by (intros P; tauto).
  destruct (environ w !! "ANTHROPIC_API_KEY") as [[|c t]|] eqn:Henv; cbn [snd].
  1, 3: split; [right; reflexivity |]; apply Hstay;
        intros ((key & Hkey & Hne) & _); congruence.
  destruct (dict_lookup results "error") as [err|] eqn:Herr; cbn [snd].
  { split; [right; reflexivity |]. apply Hstay. intros (_ & H & _). discriminate. }
  rewrite explain_call_eq.
  assert (Hsent : forall req : llm_request,
             let run := match create_reply (remote w) (trace w) req with
                        | Return content => first_text content (log (MessagesCreate req) w)
                        | Raise e => (Raise e, log (MessagesCreate req) w)
                        end in
             snd run = log (MessagesCreate req) w).
  { intros req. cbv zeta. destruct (create_reply _ _ _); [apply first_text_world | reflexivity]. }
  destruct (dict_get results "result" (VList [])) as [| | | | text|rows|d] eqn:Hres;
    destruct (dict_get results "pagination" (VDict [])) as [| | | | | |p] eqn:Hpag;
    cbv zeta; rewrite ?Hsent; cbn [snd];
    first
      [ (* the request is sent *)
        split; [left; eexists; reflexivity |];
        split; [intros _ | intros _; apply log_neq];
        (split; [exists (String c t); split; [reflexivity | discriminate] |]);
        (split; [reflexivity |]);
        (split; [first [left; eexists; reflexivity | right; eexists; reflexivity]
                | eexists; reflexivity])
      | (* an exception before the request *)
        split; [right; reflexivity |]; apply Hstay;
        intros (_ & _ & [[? ?]|[? ?]] & [? ?]); discriminate ].
Qed.

(** X3.  A body whose [error] field is present and falsy (for instance
    [null]) is a success for [query_berdl], which returns it verbatim,
    and a failure for [explain_results], which tests for the key only:
    the answer is the [Query failed] line with the printed field, and
    the language model is not called. *)
Theorem falsy_error_field_disagreement
    (question sql token key : string) (d : dict) (err : value) (w : World) :
  environ w !! "KB_AUTH_TOKEN" = Some token -> token <> EmptyString ->
  environ w !! "ANTHROPIC_API_KEY" = Some key -> key <> EmptyString ->
  denied sql = false ->
  post_reply (remote w) (trace w) (query_request token sql) = body (VDict d) ->
  dict_lookup d "error" = Some err -> truthy err = false ->
  truthy (dict_get d "error_type" VNone) = false ->
  let w' := log (HttpPost (query_request token sql)) w in
  query_berdl sql w = (Return (VDict d), w') /\
  explain_results float_repr question sql d w'
  = (Return ("**Query failed:** " +:+ str float_repr err), w').
Proof.
  intros Htok Htne Hkey Hkne Hok Hreply Herr Hfalsy Htype w'. split.
  - rewrite (query_berdl_sends sql token w Htok Htne Hok).
    unfold try_except. rewrite query_attempt_eq, Hreply. cbn.
    unfold dict_get at 1. rewrite Herr. cbn. rewrite Hfalsy, Htype. reflexivity.
  - rewrite explain_results_eq. unfold w'. rewrite log_environ, Hkey, Herr.
    destruct key; [congruence | reflexivity].
Qed.

(** X4.  Whatever [generate_sql] returns neither starts nor ends with
    white space: it is the sentinel or the stripped text of the model. *)
Theorem generate_sql_stripped (user_question sql : string) (w : World) :
  fst (generate_sql user_question w) = Return sql ->
  (forall c, Str.first_char sql = Some c -> Str.isspace c = false) /\
  (forall c, Str.last_char sql = Some c -> Str.isspace c = false).
Proof.
  unfold generate_sql, bind, getenv, messages_create.
  assert (Hsentinel :
            (forall c, Str.first_char "-- Error: ANTHROPIC_API_KEY not set" = Some c ->
                       Str.isspace c = false) /\
            (forall c, Str.last_char "-- Error: ANTHROPIC_API_KEY not set" = Some c ->
                       Str.isspace c = false)).
  { split; intros c H; cbn in H; injection H as <-; reflexivity. }
  destruct (environ w !! "ANTHROPIC_API_KEY") as [[|c t]|];
    try (cbn; intros H; injection H as <-; exact Hsentinel).
  destruct (create_reply _ _ _) as [content|e]; [| discriminate].
  destruct content as [|[text|cls] content]; cbn; try discriminate.
  intros H. injection H as <-. apply strip_ends.
Qed.

End CallProperties.

(** ** The callbacks of the page *)

Section CallbackProperties.

Variable float_repr : spec_float -> string.

(** The page while a turn is running: input cleared, the question and
    the spinner at the end of the chat. *)
Lemma waiting_page (question : string) (p : Page) :
  set_chat (fun cards => cards ++ [LoadingCard])
    (add_message "user" question None (set_input_value EmptyString p))
  = {| dot_classes := dot_classes p; status_text := status_text p;
       chat := chat p ++ [UserCard question; LoadingCard];
       input_value := EmptyString |}.
Proof. unfold set_chat, add_message, set_input_value. cbn. now rewrite <- app_assoc. Qed.

Lemma delete_spinner (cards : list card) (question : string) :
  delete (length (cards ++ [UserCard question])) (cards ++ [UserCard question; LoadingCard])
  = cards ++ [UserCard question].
Proof.
  induction cards as [|c cards IH]; [reflexivity |].
  cbn. f_equal. exact IH.
Qed.

(** The SQL panel of an answer: there when the SQL is not empty. *)
Lemma answered_page (question explanation sql : string) (p : Page) :
  add_message "assistant" explanation (Some sql)
    (set_chat (delete (length (chat p ++ [UserCard question])))
       {| dot_classes := dot_classes p; status_text := status_text p;
          chat := chat p ++ [UserCard question; LoadingCard];
          input_value := EmptyString |})
  = {| dot_classes := dot_classes p; status_text := status_text p;
       chat := chat p ++
               [UserCard question;
                AssistantCard explanation
                  (if String.eqb sql EmptyString then None else Some sql)];
       input_value := EmptyString |}.
Proof.
  unfold add_message, set_chat. cbn. rewrite delete_spinner, <- app_assoc.
  destruct sql; reflexivity.
Qed.

(** [send_message] for a question that is not blank, call by call. *)
Lemma send_message_eq (p : Page) (w : World) :
  Str.blank (input_value p) = false ->
  let question := input_value p in
  let waiting := {| dot_classes := dot_classes p; status_text := status_text p;
                    chat := chat p ++ [UserCard question; LoadingCard];
                    input_value := EmptyString |} in
  send_message float_repr p w =
  match generate_sql question w with
  | (Raise e, w1) => (Raise e, waiting, w1)
  | (Return sql, w1) =>
      match query_berdl sql w1 with
      | (Raise e, w2) => (Raise e, waiting, w2)
      | (Return (VDict d), w2) =>
          match explain_results float_repr question sql d w2 with
          | (Raise e, w3) => (Raise e, waiting, w3)
          | (Return explanation, w3) =>
              (Return tt,
               {| dot_classes := dot_classes p; status_text := status_text p;
                  chat := chat p ++
                          [UserCard question;
                           AssistantCard explanation
                             (if String.eqb sql EmptyString then None else Some sql)];
                  input_value := EmptyString |},
               w3)
          end
      | (Return other, w2) =>
          (Raise (OtherException "TypeError"
                    ("'" +:+ type_name other +:+ "' object is not a mapping")),
           waiting, w2)
      end
  end.
Proof.
  intros Hblank question waiting.
  assert (Hstrip : String.eqb (Str.strip (input_value p)) EmptyString = false).
  { apply String.eqb_neq. intros H. apply strip_blank in H. congruence. }
  unfold send_message, ui_bind, read. rewrite Hstrip.
  unfold modify, add_loading_card, remove_card, modify, call.
  rewrite waiting_page. fold question. fold waiting.
  destruct (generate_sql question w) as [[sql|e] w1]; [| reflexivity].
  destruct (query_berdl sql w1) as [[r|e] w2]; [| reflexivity].
  destruct r; try reflexivity.
  cbn [as_dict ret].
  destruct (explain_results float_repr question sql d w2) as [[explanation|e] w3];
    [| reflexivity].
  f_equal. f_equal.
  pose proof (answered_page question explanation sql p) as H.
  unfold add_message, set_chat, set_input_value in *. cbn in *.
  rewrite length_app in H. cbn in H. rewrite length_app. cbn. exact H.
Qed.

(** [send_message] on a blank input field. *)
Lemma send_message_skip (p : Page) (w : World) :
  Str.blank (input_value p) = true ->
  send_message float_repr p w = (Return tt, p, w).
Proof.
  intros H. apply strip_blank in H.
  unfold send_message, ui_bind, read. rewrite H. reflexivity.
Qed.

(** X6.  A turn for a question that is not blank clears the input
    field, leaves the status line alone and adds two cards after the
    old ones: the question as typed, and then the answer when the turn
    returns, or the spinner, never removed, when an exception ends the
    turn. *)
Theorem send_message_cards (p : Page) (w : World) :
  Str.blank (input_value p) = false ->
  let run := send_message float_repr p w in
  let p' := snd (fst run) in
  input_value p' = EmptyString /\
  dot_classes p' = dot_classes p /\
  status_text p' = status_text p /\
  match fst (fst run) with
  | Return _ =>
      exists explanation panel,
        chat p' = chat p ++ [UserCard (input_value p); AssistantCard explanation panel]
  | Raise _ =>
      chat p' = chat p ++ [UserCard (input_value p); LoadingCard]
  end.
Proof.
  intros Hblank. cbv zeta. rewrite (send_message_eq p w Hblank). cbv zeta.
  destruct (generate_sql (input_value p) w) as [[sql|e] w1]; [| cbn; tauto].
  destruct (query_berdl sql w1) as [[r|e] w2]; [| cbn; tauto].
  destruct r; try (cbn; tauto).
  destruct (explain_results float_repr (input_value p) sql d w2) as [[explanation|e] w3];
    [| cbn; tauto].
  cbn. repeat split. eauto.
Qed.

(** X7.  Only the language model can end a turn with an exception: when
    [send_message] raises, either [generate_sql] raised or
    [explain_results] raised on the envelope of [query_berdl], which
    itself never breaks a turn. *)
Theorem send_message_raises (p : Page) (w : World) (e : exn) :
  fst (fst (send_message float_repr p w)) = Raise e ->
  fst (generate_sql (input_value p) w) = Raise e \/
  exists sql w1 d w2,
    generate_sql (input_value p) w = (Return sql, w1) /\
    query_berdl sql w1 = (Return (VDict d), w2) /\
    fst (explain_results float_repr (input_value p) sql d w2) = Raise e.
Proof.
  destruct (Str.blank (input_value p)) eqn:Hblank.
  { rewrite (send_message_skip p w Hblank). discriminate. }
  rewrite (send_message_eq p w Hblank). cbv zeta.
  destruct (generate_sql (input_value p) w) as [[sql|e1] w1] eqn:Hg;
    [| cbn; intros H; left; congruence].
  destruct (query_berdl_returns_dict sql w1) as [d Hd].
  destruct (query_berdl sql w1) as [[r|e2] w2] eqn:Hq; cbn in Hd; [| discriminate].
  injection Hd as ->.
  destruct (explain_results float_repr (input_value p) sql d w2) as [[x|e3] w3] eqn:Hx;
    cbn [fst snd]; [discriminate |].
  intros H. right. exists sql, w1, d, w2.
  split; [reflexivity | split; [exact Hq |]]. rewrite Hx. cbn. congruence.
Qed.

(** X8.  The cards already on the page play no part in a turn: two
    pages with the same text in the input field give the same calls,
    the same outcome and the same new cards. *)
Theorem send_message_no_memory (p1 p2 : Page) (w : World) :
  input_value p1 = input_value p2 ->
  let run1 := send_message float_repr p1 w in
  let run2 := send_message float_repr p2 w in
  fst (fst run1) = fst (fst run2) /\
  snd run1 = snd run2 /\
  forall new, chat (snd (fst run1)) = chat p1 ++ new ->
              chat (snd (fst run2)) = chat p2 ++ new.
Proof.
  intros Hin. cbv zeta.
  destruct (Str.blank (input_value p1)) eqn:Hblank.
  { rewrite (send_message_skip p1 w Hblank).
    rewrite Hin in Hblank. rewrite (send_message_skip p2 w Hblank).
    cbn. repeat split. intros new H.
    apply (f_equal (fun l => length l)) in H. rewrite length_app in H.
    destruct new; [now rewrite app_nil_r | cbn in H; lia]. }
  rewrite (send_message_eq p1 w Hblank).
  rewrite Hin in Hblank. rewrite (send_message_eq p2 w Hblank).
  cbv zeta. rewrite Hin.
  destruct (generate_sql (input_value p2) w) as [[sql|e] w1].
  2: { cbn. repeat split. intros new H. apply app_inv_head in H. now subst. }
  destruct (query_berdl sql w1) as [[r|e] w2].
  2: { cbn. repeat split. intros new H. apply app_inv_head in H. now subst. }
  destruct r;
    try (cbn; repeat split; intros new H; apply app_inv_head in H; now subst).
  destruct (explain_results float_repr (input_value p2) sql d w2) as [[x|e] w3];
    cbn; repeat split; intros new H; apply app_inv_head in H; now subst.
Qed.

End CallbackProperties.

Section TurnProperties.

Variable float_repr : spec_float -> string.

(** The request of [explain_results], when there is one, has no system
    prompt and comes from a world with the key set and an envelope
    without [error] key. *)
Lemma explain_results_world (question sql : string) (results : dict) (w : World) :
  let w' := snd (explain_results float_repr question sql results w) in
  w' = w \/
  exists key content,
    environ w !! "ANTHROPIC_API_KEY" = Some key /\ key <> EmptyString /\
    dict_lookup results "error" = None /\
    w' = log (MessagesCreate (explain_request key content)) w.
Proof.
  cbv zeta. rewrite explain_results_eq.
  destruct (environ w !! "ANTHROPIC_API_KEY") as [[|c t]|] eqn:Henv;
    try (left; reflexivity).
  destruct (dict_lookup results "error") as [err|] eqn:Herr; [left; reflexivity |].
  rewrite explain_call_eq.
  assert (Hsent : forall content : string,
             let req := explain_request (String c t) content in
             exists key content',
               Some (String c t) = Some key /\ key <> EmptyString /\
               @None value = None /\
               snd match create_reply (remote w) (trace w) req with
                   | Return blocks => first_text blocks (log (MessagesCreate req) w)
                   | Raise e => (Raise e, log (MessagesCreate req) w)
                   end
               = log (MessagesCreate (explain_request key content')) w).
  { intros content req. exists (String c t), content.
    repeat split; try discriminate.
    destruct (create_reply _ _ _); [apply first_text_world | reflexivity]. }
  destruct (dict_get results "result" (VList [])) as [| | | | text|rows|d];
    destruct (dict_get results "pagination" (VDict [])) as [| | | | | |pg];
    try (left; reflexivity); right; apply Hsent.
Qed.

(** The world after a turn, from the worlds of its three calls. *)
Lemma send_message_world (p : Page) (w : World) :
  Str.blank (input_value p) = false ->
  snd (send_message float_repr p w) =
  match generate_sql (input_value p) w with
  | (Raise _, w1) => w1
  | (Return sql, w1) =>
      match query_berdl sql w1 with
      | (Return (VDict d), w2) =>
          snd (explain_results float_repr (input_value p) sql d w2)
      | (_, w2) => w2
      end
  end.
Proof.
  intros Hblank. rewrite (send_message_eq float_repr p w Hblank). cbv zeta.
  destruct (generate_sql (input_value p) w) as [[sql|e] w1]; [| reflexivity].
  destruct (query_berdl sql w1) as [[r|e] w2]; [| reflexivity].
  destruct r; try reflexivity.
  destruct (explain_results float_repr (input_value p) sql d w2) as [[x|e] w3];
    reflexivity.
Qed.

(** X9.  A turn calls out at most three times and in a fixed order:
    the model for SQL, then one POST, then the model for the
    explanation.  The explanation is asked for only after a POST, and
    never without the first call; a POST without the first call carries
    the sentinel of the missing key as its SQL.  The environment and the
    remote are not touched. *)
Theorem send_message_calls (p : Page) (w : World) :
  let w' := snd (send_message float_repr p w) in
  environ w' = environ w /\ remote w' = remote w /\
  exists new : list event, trace w' = new ++ trace w /\ turn_calls new.
Proof.
  cbv zeta.
  destruct (Str.blank (input_value p)) eqn:Hblank.
  { rewrite (send_message_skip float_repr p w Hblank). cbn.
    repeat split. exists []. split; [reflexivity | constructor]. }
  rewrite (send_message_world p w Hblank).
  set (question := input_value p).
  destruct (generate_sql_world question w)
    as [(key & Hkey & Hkne & Hw1) | (Hkey & Hgen)].
  - (* the key is set: the model is asked for SQL *)
    set (ask := generate_request key question) in *.
    assert (Hask : system ask = Some SCHEMA_CONTEXT) by reflexivity.
    destruct (generate_sql question w) as [[sql|e] w1]; cbn [snd] in Hw1; subst w1.
    2: { repeat split. exists [MessagesCreate ask]. split; [reflexivity | now constructor]. }
    pose proof (query_berdl_returns_dict sql (log (MessagesCreate ask) w)) as [d Hd].
    pose proof (query_berdl_sent_or_not sql (log (MessagesCreate ask) w)) as Hpost.
    pose proof (query_berdl_unsent sql (log (MessagesCreate ask) w)) as Hunsent.
    cbv zeta in Hpost.
    destruct (query_berdl sql (log (MessagesCreate ask) w)) as [[r|e] w2];
      cbn [fst snd] in *; [| discriminate].
    injection Hd as ->.
    pose proof (explain_results_world question sql d w2) as Hexp. cbv zeta in Hexp.
    destruct Hpost as [(token & _ & _ & _ & Hw2 & _) | (_ & Hw2)]; subst w2.
    + (* the POST was sent *)
      destruct Hexp as [-> | (key' & content & _ & _ & _ & ->)].
      * repeat split. eexists [_; _]. split; [reflexivity | now constructor].
      * repeat split. eexists [_; _; _]. split; [reflexivity | now constructor].
    + (* stopped before the network: an error envelope, nothing to explain *)
      destruct (Hunsent eq_refl) as [msg Hmsg]. injection Hmsg as ->.
      destruct Hexp as [-> | (key' & content & _ & _ & Herr & _)];
        [| discriminate].
      repeat split. exists [MessagesCreate ask]. split; [reflexivity | now constructor].
  - (* the key is missing: the sentinel goes on as the SQL *)
    rewrite Hgen.
    pose proof (query_berdl_returns_dict "-- Error: ANTHROPIC_API_KEY not set" w) as [d Hd].
    pose proof (query_berdl_sent_or_not "-- Error: ANTHROPIC_API_KEY not set" w) as Hpost.
    cbv zeta in Hpost.
    destruct (query_berdl "-- Error: ANTHROPIC_API_KEY not set" w) as [[r|e] w2];
      cbn [fst snd] in *; [| discriminate].
    injection Hd as ->.
    assert (Hexp : snd (explain_results float_repr question
                          "-- Error: ANTHROPIC_API_KEY not set" d w2) = w2).
    { destruct (explain_results_world question "-- Error: ANTHROPIC_API_KEY not set" d w2)
        as [H | (key' & content & Hk & Hne & _)]; [exact H |].
      exfalso.
      assert (Henv : environ w2 = environ w)
        by (destruct Hpost as [(? & _ & _ & _ & -> & _) | (_ & ->)]; reflexivity).
      rewrite Henv in Hk. destruct Hkey as [Hkey | Hkey]; congruence. }
    rewrite Hexp.
    destruct Hpost as [(token & _ & _ & _ & -> & _) | (_ & ->)].
    + repeat split. eexists [_]. split; [reflexivity | now constructor].
    + repeat split. exists []. split; [reflexivity | constructor].
Qed.

(** X10.  With the language-model key missing and the token set, a
    turn still queries the service: the sentinel of [generate_sql]
    passes the denylist and is posted as the SQL.  The model is never
    called, and the answer card shows the missing-key error above a SQL
    panel that holds the sentinel. *)
Theorem send_message_posts_sentinel (p : Page) (w : World) (token : string) :
  Str.blank (input_value p) = false ->
  environ w !! "ANTHROPIC_API_KEY" = None ->
  environ w !! "KB_AUTH_TOKEN" = Some token -> token <> EmptyString ->
  let sentinel := "-- Error: ANTHROPIC_API_KEY not set" in
  send_message float_repr p w
  = (Return tt,
     {| dot_classes := dot_classes p; status_text := status_text p;
        chat := chat p ++ [UserCard (input_value p);
                           AssistantCard "Error: ANTHROPIC_API_KEY not set" (Some sentinel)];
        input_value := EmptyString |},
     log (HttpPost (query_request token sentinel)) w).
Proof.
  intros Hblank Hkey Htok Htne sentinel.
  rewrite (send_message_eq float_repr p w Hblank). cbv zeta.
  destruct (generate_sql_world (input_value p) w)
    as [(key & Hk & _) | (_ & ->)]; [congruence |].
  fold sentinel.
  rewrite (query_berdl_sends sentinel token w Htok Htne eq_refl).
  pose proof (try_except_query_world token sentinel w) as Hw2.
  pose proof (query_berdl_returns_dict sentinel w) as [d Hd].
  rewrite (query_berdl_sends sentinel token w Htok Htne eq_refl) in Hd.
  destruct (try_except (query_attempt token sentinel) query_handler w) as [[r|e] w2];
    cbn [fst snd] in *; [| discriminate].
  injection Hd as ->. subst w2.
  rewrite explain_results_eq, log_environ, Hkey. reflexivity.
Qed.

(** X11.  Whenever the envelope of [query_berdl] in a turn has an
    [error] key (missing token, denylist, remote error, timeout or any
    caught exception), the turn ends normally with the answer card
    [**Query failed:** ] followed by the printed error, and the model is
    not asked to explain: the world is the one [query_berdl] left. *)
Theorem send_message_query_failed
    (p : Page) (w w1 w2 : World) (key sql : string) (d : dict) (err : value) :
  Str.blank (input_value p) = false ->
  environ w !! "ANTHROPIC_API_KEY" = Some key -> key <> EmptyString ->
  generate_sql (input_value p) w = (Return sql, w1) ->
  query_berdl sql w1 = (Return (VDict d), w2) ->
  dict_lookup d "error" = Some err ->
  send_message float_repr p w
  = (Return tt,
     {| dot_classes := dot_classes p; status_text := status_text p;
        chat := chat p ++
                [UserCard (input_value p);
                 AssistantCard ("**Query failed:** " +:+ str float_repr err)
                   (if String.eqb sql EmptyString then None else Some sql)];
        input_value := EmptyString |},
     w2).
Proof.
  intros Hblank Hkey Hkne Hgen Hq Herr.
  rewrite (send_message_eq float_repr p w Hblank). cbv zeta.
  rewrite Hgen, Hq.
  assert (Henv : environ w2 = environ w).
  { destruct (query_berdl_world sql w1) as (H2 & _). rewrite Hq in H2. cbn in H2.
    rewrite H2.
    destruct (generate_sql_world (input_value p) w)
      as [(key' & _ & _ & H1) | (_ & H1)]; rewrite Hgen in H1.
    - cbn in H1. now rewrite H1.
    - now injection H1 as _ <-. }
  rewrite explain_results_eq, Henv, Hkey, Herr.
  destruct key; [congruence | reflexivity].
Qed.

End TurnProperties.

(** X1.  [query_berdl] sends at most one POST, and sends it exactly when
    the token is set and no keyword occurs in the upper-cased SQL.  The
    POST goes to the fixed URL with the bearer token, a limit of 100 and
    the SQL as it was given; otherwise the world is untouched. *)
Theorem query_berdl_posts_once (sql : string) (w : World) :
  let w' := snd (query_berdl sql w) in
  (exists token,
      environ w !! "KB_AUTH_TOKEN" = Some token /\ token <> EmptyString /\
      (forall keyword, In keyword keywords -> ~ Str.occurs_in keyword (Str.upper sql)) /\
      w' = log (HttpPost {| url := BERDL_API_URL;
                            authorization := "Bearer " +:+ token;
                            content_type := "application/json";
                            body_query := sql;
                            body_limit := 100;
                            timeout_s := 30 |}) w /\
      w' <> w)
  \/
  ((environ w !! "KB_AUTH_TOKEN" = None \/
    environ w !! "KB_AUTH_TOKEN" = Some EmptyString \/
    exists keyword, In keyword keywords /\ Str.occurs_in keyword (Str.upper sql)) /\
   w' = w).
Proof. exact (query_berdl_sent_or_not sql w). Qed.

(** X5.  A question of white space only (or none) does nothing:
    [send_message] returns with the page and the world as they were, no
    card added and no call made. *)
Theorem send_message_blank
    (float_repr : spec_float -> string) (p : Page) (w : World) :
  Str.blank (input_value p) = true ->
  send_message float_repr p w = (Return tt, p, w).
Proof. exact (send_message_skip float_repr p w). Qed.

(** ** The status line *)

Lemma existsb_eqb_In (c : string) (l : list string) :
  existsb (String.eqb c) l = true <-> In c l.
Proof.
  rewrite existsb_exists. split.
  - intros (x & Hin & Heq). apply String.eqb_eq in Heq. now subst.
  - intros Hin. exists c. split; [exact Hin | apply String.eqb_refl].
Qed.

Lemma first_occurrences_In (c : string) (l seen : list string) :
  In c (first_occurrences seen l) <-> In c l /\ ~ In c seen.
Proof.
  revert seen. induction l as [|x l IH]; intros seen; cbn; [tauto |].
  destruct (existsb (String.eqb x) seen) eqn:E.
  - apply existsb_eqb_In in E. rewrite IH. split.
    + tauto.
    + intros [[-> | Hin] Hns]; tauto.
  - assert (Hx : ~ In x seen).
    { intros H. apply existsb_eqb_In in H. congruence. }
    cbn. rewrite IH. cbn. split.
    + intros [-> | [Hin Hns]]; [tauto |]. split; [tauto |]. tauto.
    + intros [[-> | Hin] Hns]; [tauto |].
      destruct (String.eqb_spec x c) as [-> | Hne]; [tauto |]. right. tauto.
Qed.

Lemma first_occurrences_NoDup (l seen : list string) :
  List.NoDup (first_occurrences seen l).
Proof.
  revert seen. induction l as [|x l IH]; intros seen; cbn; [constructor |].
  destruct (existsb (String.eqb x) seen); [apply IH |].
  constructor; [| apply IH].
  rewrite first_occurrences_In. cbn. tauto.
Qed.

(** The classes after an update: those that were there and are not
    removed, and those added, each once. *)
Lemma update_classes_In (c : string) (add remove classes : list string) :
  In c (update_classes add remove classes)
  <-> (In c classes /\ ~ In c remove) \/ In c add.
Proof.
  unfold update_classes. rewrite first_occurrences_In, in_app_iff.
  rewrite <- list_elem_of_In, list_elem_of_filter, list_elem_of_In.
  rewrite negb_True, Is_true_true, existsb_eqb_In. cbn. tauto.
Qed.

Lemma update_classes_NoDup (add remove classes : list string) :
  List.NoDup (update_classes add remove classes).
Proof. apply first_occurrences_NoDup. Qed.

Section StatusProperties.

Variable float_repr : spec_float -> string.

(** [check_connection], by the envelope of its probe. *)
Lemma check_connection_eq (p : Page) (w : World) :
  check_connection float_repr p w =
  match query_berdl "SELECT 1 as test" w with
  | (Raise e, w') => (Raise e, p, w')
  | (Return (VDict d), w') =>
      match dict_lookup d "error" with
      | None => (Return tt, green_page p, w')
      | Some (VStr msg) =>
          (Return tt,
           set_status_text ("Disconnected: " +:+ Str.take 50 msg) (red_page p), w')
      | Some (VList l) =>
          (Return tt,
           set_status_text ("Disconnected: " +:+ repr float_repr (VList (firstn 50 l)))
             (red_page p), w')
      | Some (VDict _) =>
          (Raise (OtherException "KeyError" "slice(None, 50, None)"), red_page p, w')
      | Some other =>
          (Raise (OtherException "TypeError"
                    ("'" +:+ type_name other +:+ "' object is not subscriptable")),
           red_page p, w')
      end
  | (Return other, w') =>
      (Raise (OtherException "TypeError"
                ("'" +:+ type_name other +:+ "' object is not a mapping")), p, w')
  end.
Proof.
  unfold check_connection, ui_bind, call.
  destruct (query_berdl "SELECT 1 as test" w) as [[r|e] w']; [| reflexivity].
  destruct r; try reflexivity. cbn [as_dict ret].
  destruct (dict_lookup d "error") as [err|]; [| reflexivity].
  destruct err; reflexivity.
Qed.

(** An envelope without [error] key is a decoded body, returned as it
    came: the token is set, the query passed the denylist and was
    posted, and the body has no truthy [error_type]. *)
Lemma query_berdl_no_error_key (sql : string) (d : dict) (w w' : World) :
  query_berdl sql w = (Return (VDict d), w') ->
  dict_lookup d "error" = None ->
  exists token,
    environ w !! "KB_AUTH_TOKEN" = Some token /\ token <> EmptyString /\
    denied sql = false /\
    post_reply (remote w) (trace w) (query_request token sql) = body (VDict d) /\
    truthy (dict_get d "error_type" VNone) = false /\
    w' = log (HttpPost (query_request token sql)) w.
Proof.
  rewrite query_berdl_eq. intros Hrun Hkey.
  assert (Henvelope : forall (m : value) (x : World),
             (Return (error_envelope m), x) = (Return (VDict d), w') -> False).
  { intros m x H. injection H as <- _. cbn in Hkey. discriminate. }
  destruct (environ w !! "KB_AUTH_TOKEN") as [[|c t]|] eqn:Henv;
    try (now apply Henvelope in Hrun).
  destruct (denied sql) eqn:Hd; [now apply Henvelope in Hrun |].
  unfold try_except in Hrun. rewrite query_attempt_eq in Hrun. cbn in Hrun.
  exists (String c t).
  destruct (post_reply _ _ _) as [[[data|e]]|e] eqn:Hreply; cbn in Hrun.
  - destruct data; try (now apply Henvelope in Hrun).
    destruct (orb _ _) eqn:Hor; cbn in Hrun; [now apply Henvelope in Hrun |].
    injection Hrun as -> <-.
    apply orb_false_iff in Hor as [_ Htype].
    repeat split; [discriminate | exact Htype].
  - destruct e; now apply Henvelope in Hrun.
  - destruct e; now apply Henvelope in Hrun.
Qed.

Lemma query_berdl_verbatim (sql token : string) (d : dict) (w : World) :
  environ w !! "KB_AUTH_TOKEN" = Some token -> token <> EmptyString ->
  denied sql = false ->
  post_reply (remote w) (trace w) (query_request token sql) = body (VDict d) ->
  dict_lookup d "error" = None ->
  truthy (dict_get d "error_type" VNone) = false ->
  query_berdl sql w = (Return (VDict d), log (HttpPost (query_request token sql)) w).
Proof.
  intros Henv Hne Hok Hreply Hkey Htype.
  rewrite (query_berdl_sends sql token w Henv Hne Hok).
  unfold try_except. rewrite query_attempt_eq, Hreply. cbn.
  unfold dict_get at 1. rewrite Hkey. cbn. rewrite Htype. reflexivity.
Qed.

Lemma disconnected_is_not_connected (text : string) :
  "Disconnected: " +:+ text <> "Connected to BERDL".
Proof. rewrite append_cons. discriminate. Qed.

(** X12.  The status line ends on [Connected to BERDL] exactly when the
    token is set and the service answers the probe [SELECT 1 as test]
    with a JSON object that has no [error] key and no truthy
    [error_type]; the icon is green then and the probe was posted
    once. *)
Theorem check_connection_connected_iff (p : Page) (w : World) :
  let run := check_connection float_repr p w in
  (fst (fst run) = Return tt /\ status_text (snd (fst run)) = "Connected to BERDL")
  <->
  (exists token d,
      environ w !! "KB_AUTH_TOKEN" = Some token /\ token <> EmptyString /\
      post_reply (remote w) (trace w) (query_request token "SELECT 1 as test")
      = body (VDict d) /\
      dict_lookup d "error" = None /\
      truthy (dict_get d "error_type" VNone) = false /\
      run = (Return tt, green_page p,
             log (HttpPost (query_request token "SELECT 1 as test")) w)).
Proof.
  cbv zeta. rewrite check_connection_eq. split.
  - destruct (query_berdl "SELECT 1 as test" w) as [[r|e] w'] eqn:Hrun;
      [| intros [H _]; discriminate].
    destruct r; try (intros [H _]; discriminate).
    destruct (dict_lookup d "error") as [err|] eqn:Hkey.
    + destruct err; cbn; intros [H Htext]; try discriminate;
        now apply disconnected_is_not_connected in Htext.
    + intros _.
      destruct (query_berdl_no_error_key _ _ _ _ Hrun Hkey)
        as (token & Henv & Hne & _ & Hreply & Htype & ->).
      exists token, d. repeat split; assumption.
  - intros (token & d & Henv & Hne & Hreply & Hkey & Htype & _).
    rewrite (query_berdl_verbatim "SELECT 1 as test" token d w
               Henv Hne eq_refl Hreply Hkey Htype), Hkey.
    split; reflexivity.
Qed.

(** Setting one colour and removing the two others. *)
Lemma recolour (colour other1 other2 : string) (classes : list string) :
  colour <> other1 -> colour <> other2 ->
  let new := update_classes [colour] [other1; other2] classes in
  In colour new /\ ~ In other1 new /\ ~ In other2 new /\ List.NoDup new /\
  (forall c, c <> colour -> c <> other1 -> c <> other2 ->
             (In c new <-> In c classes)).
Proof.
  intros H1 H2. cbv zeta.
  split; [| split; [| split; [| split]]].
  - apply update_classes_In. right. now left.
  - rewrite update_classes_In. cbn. intros [[_ H] | [H | []]]; [tauto | congruence].
  - rewrite update_classes_In. cbn. intros [[_ H] | [H | []]]; [tauto | congruence].
  - apply update_classes_NoDup.
  - intros c Hc Hc1 Hc2. rewrite update_classes_In. cbn. split.
    + intros [[H _] | [H | []]]; [exact H | congruence].
    + intros H. left. split; [exact H |].
      intros [E | [E | []]]; congruence.
Qed.

(** X13.  After [check_connection], however it ends, the status icon
    carries exactly one of the three colour classes, red or green and
    never the yellow of [Checking connection...]; no class is there
    twice, and the other classes are those it had. *)
Theorem check_connection_one_colour (p : Page) (w : World) :
  let classes := dot_classes (snd (fst (check_connection float_repr p w))) in
  ((In RED classes /\ ~ In GREEN classes) \/ (In GREEN classes /\ ~ In RED classes)) /\
  ~ In YELLOW classes /\
  List.NoDup classes /\
  (forall c, c <> RED -> c <> GREEN -> c <> YELLOW ->
             (In c classes <-> In c (dot_classes p))).
Proof.
  cbv zeta. rewrite check_connection_eq.
  destruct (query_berdl_returns_dict "SELECT 1 as test" w) as [d Hd].
  destruct (query_berdl "SELECT 1 as test" w) as [[r|e] w']; cbn in Hd; [| discriminate].
  injection Hd as ->.
  assert (Hred := recolour RED YELLOW GREEN (dot_classes p)).
  assert (Hgreen := recolour GREEN YELLOW RED (dot_classes p)).
  cbv zeta in Hred, Hgreen.
  destruct Hred as (R1 & R2 & R3 & R4 & R5); try discriminate.
  destruct Hgreen as (G1 & G2 & G3 & G4 & G5); try discriminate.
  destruct (dict_lookup d "error") as [err|].
  - destruct err;
      cbn [fst snd red_page set_status_text set_dot_classes dot_classes];
      (split; [left; split; assumption |]);
      (split; [assumption |]); (split; [assumption |]);
      intros c Hr Hg Hy; apply R5; assumption.
  - cbn [fst snd green_page set_status_text set_dot_classes dot_classes].
    split; [right; split; assumption |].
    split; [assumption |]. split; [assumption |].
    intros c Hr Hg Hy. apply G5; assumption.
Qed.

Lemma length_append (a b : string) :
  String.length (a +:+ b) = (String.length a + String.length b)%nat.
Proof.
  induction a as [|c a IH]; [reflexivity |].
  rewrite append_cons. cbn. now rewrite IH.
Qed.

Lemma length_take_le (n : nat) (s : string) : (String.length (Str.take n s) <= n)%nat.
Proof.
  revert s. induction n as [|n IH]; intros [|c s]; cbn; try lia.
  specialize (IH s). lia.
Qed.

Lemma take_all (n : nat) (s : string) : (String.length s <= n)%nat -> Str.take n s = s.
Proof.
  revert s. induction n as [|n IH]; intros [|c s]; cbn; intros H;
    try reflexivity; try lia.
  rewrite IH; [reflexivity | lia].
Qed.

Lemma take_prefix (n : nat) (s : string) : Str.startswith (Str.take n s) s = true.
Proof.
  revert s. induction n as [|n IH]; intros [|c s]; cbn; try reflexivity.
  now rewrite Ascii.eqb_refl, IH.
Qed.

(** X14.  When the probe comes back with a text as its error, the icon
    turns red and the status text is [Disconnected: ] followed by the
    first 50 characters of that text: the whole message when it is that
    short, and never more than 64 characters in all. *)
Theorem check_connection_disconnected
    (p : Page) (w w' : World) (d : dict) (msg : string) :
  query_berdl "SELECT 1 as test" w = (Return (VDict d), w') ->
  dict_lookup d "error" = Some (VStr msg) ->
  let text := "Disconnected: " +:+ Str.take 50 msg in
  check_connection float_repr p w = (Return tt, set_status_text text (red_page p), w') /\
  (String.length text <= 64)%nat /\
  Str.startswith (Str.take 50 msg) msg = true /\
  ((String.length msg <= 50)%nat -> text = "Disconnected: " +:+ msg).
Proof.
  intros Hrun Hkey text. split; [| split; [| split]].
  - now rewrite check_connection_eq, Hrun, Hkey.
  - unfold text. rewrite length_append.
    pose proof (length_take_le 50 msg) as Hle.
    change (String.length "Disconnected: ") with 14%nat. lia.
  - apply take_prefix.
  - intros H. unfold text. now rewrite take_all.
Qed.

(** X15.  When the error of the probe is neither a text nor a list (the
    service sent [null] or a number as its message, say), taking its
    first 50 characters raises: [check_connection] ends with that
    exception after the icon has turned red, and the status text stays
    what it was. *)
Theorem check_connection_raises
    (p : Page) (w w' : World) (d : dict) (err : value) :
  query_berdl "SELECT 1 as test" w = (Return (VDict d), w') ->
  dict_lookup d "error" = Some err ->
  (forall text, err <> VStr text) -> (forall l, err <> VList l) ->
  exists e,
    check_connection float_repr p w = (Raise e, red_page p, w') /\
    status_text (red_page p) = status_text p /\
    In RED (dot_classes (red_page p)).
Proof.
  intros Hrun Hkey Hstr Hlist.
  assert (Hin : In RED (dot_classes (red_page p))).
  { cbn. apply update_classes_In. right. now left. }
  rewrite check_connection_eq, Hrun, Hkey.
  destruct err as [| | | | text|l|d'];
    try (eexists; split; [reflexivity | split; [reflexivity | exact Hin]]).
  - now destruct (Hstr text).
  - now destruct (Hlist l).
Qed.

End StatusProperties.

(** ** Whole turns *)

Section TurnScenarios.

Variable float_repr : spec_float -> string.

Lemma explain_results_with_key
    (question sql key : string) (results : dict) (w : World) :
  environ w !! "ANTHROPIC_API_KEY" = Some key -> key <> EmptyString ->
  explain_results float_repr question sql results w =
  match dict_lookup results "error" with
  | Some err => (Return ("**Query failed:** " +:+ str float_repr err), w)
  | None => explain_call float_repr key question sql results w
  end.
Proof.
  intros Hkey Hne. rewrite explain_results_eq, Hkey.
  destruct key; [congruence | reflexivity].
Qed.

(** X16.  An exception of the model while it is asked for SQL is not
    caught anywhere: it ends the turn.  The question and the spinner
    stay on the page, the input field is already cleared, and nothing
    is posted to the query service. *)
Theorem send_message_generation_fails (p : Page) (w : World) (key : string) (e : exn) :
  Str.blank (input_value p) = false ->
  environ w !! "ANTHROPIC_API_KEY" = Some key -> key <> EmptyString ->
  create_reply (remote w) (trace w) (generate_request key (input_value p)) = Raise e ->
  send_message float_repr p w
  = (Raise e,
     {| dot_classes := dot_classes p; status_text := status_text p;
        chat := chat p ++ [UserCard (input_value p); LoadingCard];
        input_value := EmptyString |},
     log (MessagesCreate (generate_request key (input_value p))) w).
Proof.
  intros Hblank Hkey Hkne Hreply.
  rewrite (send_message_eq float_repr p w Hblank). cbv zeta.
  rewrite (generate_sql_asks (input_value p) key w Hkey Hkne). cbv zeta.
  rewrite Hreply. reflexivity.
Qed.

(** X17.  A turn in which everything works.  The model writes SQL that
    passes the denylist, the service answers with rows and no error,
    and the model explains: the answer card holds the stripped
    explanation above the stripped SQL, and the log holds the three
    calls in order.  The SQL that is posted and shown is the model's
    text stripped; the explanation was asked for the question as
    typed, that SQL, the total of the pagination (or the number of
    rows) and the first 10 rows. *)
Theorem send_message_answers
    (p : Page) (w : World) (key token generated explained : string)
    (more more' : list content_block) (d : dict) (rows : list value) (pg : dict) :
  let question := input_value p in
  let sql := Str.strip generated in
  let ask := generate_request key question in
  let post := query_request token sql in
  let explain :=
    explain_request key
      (explain_prompt question sql
         (str float_repr (dict_get pg "total_count" (VInt (Z.of_nat (length rows)))))
         (str float_repr (VList (firstn 10 rows)))) in
  Str.blank question = false ->
  environ w !! "ANTHROPIC_API_KEY" = Some key -> key <> EmptyString ->
  environ w !! "KB_AUTH_TOKEN" = Some token -> token <> EmptyString ->
  create_reply (remote w) (trace w) ask = Return (TextBlock generated :: more) ->
  denied sql = false ->
  post_reply (remote w) (MessagesCreate ask :: trace w) post = body (VDict d) ->
  dict_lookup d "error" = None ->
  truthy (dict_get d "error_type" VNone) = false ->
  dict_get d "result" (VList []) = VList rows ->
  dict_get d "pagination" (VDict []) = VDict pg ->
  create_reply (remote w) (HttpPost post :: MessagesCreate ask :: trace w) explain
  = Return (TextBlock explained :: more') ->
  send_message float_repr p w
  = (Return tt,
     {| dot_classes := dot_classes p; status_text := status_text p;
        chat := chat p ++
                [UserCard question;
                 AssistantCard (Str.strip explained)
                   (if String.eqb sql EmptyString then None else Some sql)];
        input_value := EmptyString |},
     log (MessagesCreate explain) (log (HttpPost post) (log (MessagesCreate ask) w))).
Proof.
  intros question sql ask post explain
         Hblank Hkey Hkne Htok Htne Hgen Hok Hpost Herr Htype Hrows Hpg Hexp.
  rewrite (send_message_eq float_repr p w Hblank). cbv zeta. fold question.
  rewrite (generate_sql_asks question key w Hkey Hkne). cbv zeta. fold ask.
  rewrite Hgen. cbn [first_text ret]. fold sql.
  rewrite (query_berdl_verbatim sql token d (log (MessagesCreate ask) w)
             Htok Htne Hok Hpost Herr Htype).
  fold post.
  rewrite (explain_results_with_key question sql key d
             (log (HttpPost post) (log (MessagesCreate ask) w)) Hkey Hkne), Herr.
  rewrite explain_call_eq, Hrows, Hpg. cbv zeta. fold explain.
  change (remote (log (HttpPost post) (log (MessagesCreate ask) w))) with (remote w).
  change (trace (log (HttpPost post) (log (MessagesCreate ask) w)))
    with (HttpPost post :: MessagesCreate ask :: trace w).
  rewrite Hexp. reflexivity.
Qed.

End TurnScenarios.

(** ** Sample runs of the further properties *)

Lemma falsy_error_field_disagreement_witness :
  let d := [("error", VNone); ("result", VList [])] in
  let w := fresh full_env (mock (body (VDict d)) (says "ok")) in
  let w' := log (HttpPost (query_request "secret-token" "SELECT 1")) w in
  query_berdl "SELECT 1" w = (Return (VDict d), w') /\
  explain_results sample_float_repr "Anything?" "SELECT 1" d w'
  = (Return "**Query failed:** None", w').
Proof.
  intros d w w'.
  apply (falsy_error_field_disagreement sample_float_repr
           "Anything?" "SELECT 1" "secret-token" "secret-key" d VNone w);
    solve [reflexivity | discriminate].
Defined.

Lemma generate_sql_stripped_witness :
  let w := fresh full_env (mock (body (VDict one_row))
                             (says ("  SELECT 1 " +:+ Str.nl))) in
  fst (generate_sql "One?" w) = Return "SELECT 1" /\
  (forall c, Str.first_char "SELECT 1" = Some c -> Str.isspace c = false) /\
  (forall c, Str.last_char "SELECT 1" = Some c -> Str.isspace c = false).
Proof.
  intros w. split; [reflexivity |].
  apply (generate_sql_stripped "One?" "SELECT 1" w). reflexivity.
Defined.

Lemma send_message_blank_witness :
  let p := asking ("   " +:+ Str.nl) in
  let w := fresh full_env (assistant "SELECT 1" "Fine." (body (VDict one_row))) in
  send_message sample_float_repr p w = (Return tt, p, w).
Proof.
  intros p w. apply (send_message_blank sample_float_repr p w). reflexivity.
Defined.

Lemma send_message_cards_witness :
  let p := asking "How many samples?" in
  let w := fresh full_env (assistant "SELECT 1" "Fine." (body (VDict one_row))) in
  let p' := snd (fst (send_message sample_float_repr p w)) in
  input_value p' = EmptyString /\
  chat p' = [UserCard "earlier question"; UserCard "How many samples?";
             AssistantCard "Fine." (Some "SELECT 1")].
Proof.
  intros p w p'.
  destruct (send_message_cards sample_float_repr p w eq_refl) as (Hin & _ & _ & _).
  split; [exact Hin | reflexivity].
Defined.

Lemma send_message_raises_witness :
  let p := asking "How many samples?" in
  let w := fresh full_env (mock (body (VDict one_row)) model_down) in
  let e := OtherException "APIConnectionError" "Connection error." in
  fst (generate_sql (input_value p) w) = Raise e \/
  exists sql w1 d w2,
    generate_sql (input_value p) w = (Return sql, w1) /\
    query_berdl sql w1 = (Return (VDict d), w2) /\
    fst (explain_results sample_float_repr (input_value p) sql d w2) = Raise e.
Proof.
  intros p w e. apply (send_message_raises sample_float_repr p w e). reflexivity.
Defined.

Lemma send_message_no_memory_witness :
  let p1 := asking "How many samples?" in
  let p2 := set_input_value "How many samples?" initial_page in
  let w := fresh full_env (assistant "SELECT 1" "Fine." (body (VDict one_row))) in
  fst (fst (send_message sample_float_repr p1 w))
  = fst (fst (send_message sample_float_repr p2 w)) /\
  snd (send_message sample_float_repr p1 w) = snd (send_message sample_float_repr p2 w).
Proof.
  intros p1 p2 w.
  destruct (send_message_no_memory sample_float_repr p1 p2 w eq_refl) as (Ho & Hw & _).
  split; [exact Ho | exact Hw].
Defined.

Lemma send_message_posts_sentinel_witness :
  let p := asking "How many samples?" in
  let w := fresh token_env (assistant "SELECT 1" "Fine." (body (VDict one_row))) in
  trace (snd (send_message sample_float_repr p w))
  = [HttpPost (query_request "secret-token" "-- Error: ANTHROPIC_API_KEY not set")].
Proof.
  intros p w.
  rewrite (send_message_posts_sentinel sample_float_repr p w "secret-token");
    solve [reflexivity | discriminate].
Defined.

Lemma send_message_query_failed_witness :
  let p := asking "Please drop the samples" in
  let w := fresh full_env (assistant "DROP TABLE samples" "Done." (body (VDict one_row))) in
  chat (snd (fst (send_message sample_float_repr p w)))
  = [UserCard "earlier question"; UserCard "Please drop the samples";
     AssistantCard "**Query failed:** Only SELECT queries are allowed"
       (Some "DROP TABLE samples")].
Proof.
  intros p w.
  rewrite (send_message_query_failed sample_float_repr p w
             (log (MessagesCreate (generate_request "secret-key" "Please drop the samples")) w)
             (log (MessagesCreate (generate_request "secret-key" "Please drop the samples")) w)
             "secret-key" "DROP TABLE samples"
             [("error", VStr "Only SELECT queries are allowed")]
             (VStr "Only SELECT queries are allowed"));
    solve [reflexivity | discriminate].
Defined.

Lemma check_connection_disconnected_witness :
  let w := fresh no_env (mock (body (VDict one_row)) (says "ok")) in
  check_connection sample_float_repr initial_page w
  = (Return tt,
     {| dot_classes := ["text-xs"; RED];
        status_text := "Disconnected: KB_AUTH_TOKEN not set in .env";
        chat := []; input_value := EmptyString |},
     w).
Proof.
  intros w.
  destruct (check_connection_disconnected sample_float_repr initial_page w w
              [("error", VStr "KB_AUTH_TOKEN not set in .env")]
              "KB_AUTH_TOKEN not set in .env" eq_refl eq_refl) as (Hrun & _).
  rewrite Hrun. reflexivity.
Defined.

Lemma check_connection_raises_witness :
  let d := [("error", VBool true); ("message", VNone)] in
  let w := fresh full_env (mock (body (VDict d)) (says "ok")) in
  let w' := log (HttpPost (query_request "secret-token" "SELECT 1 as test")) w in
  exists e,
    check_connection sample_float_repr initial_page w = (Raise e, red_page initial_page, w') /\
    status_text (red_page initial_page) = "Checking connection..." /\
    In RED (dot_classes (red_page initial_page)).
Proof.
  intros d w w'.
  apply (check_connection_raises sample_float_repr initial_page w w'
           [("error", VNone)] VNone);
    solve [reflexivity | discriminate].
Defined.

Lemma send_message_generation_fails_witness :
  let p := asking "How many samples?" in
  let w := fresh full_env (mock (body (VDict one_row)) model_down) in
  send_message sample_float_repr p w
  = (Raise (OtherException "APIConnectionError" "Connection error."),
     {| dot_classes := dot_classes p; status_text := status_text p;
        chat := [UserCard "earlier question"; UserCard "How many samples?"; LoadingCard];
        input_value := EmptyString |},
     log (MessagesCreate (generate_request "secret-key" "How many samples?")) w).
Proof.
  intros p w.
  apply (send_message_generation_fails sample_float_repr p w "secret-key");
    solve [reflexivity | discriminate].
Defined.

Lemma send_message_answers_witness :
  let p := asking "How many samples have plastic degradation?" in
  let sql := "SELECT COUNT(*) AS count FROM nmdc_core.trait_features" in
  let w := fresh full_env
             (assistant (" " +:+ sql +:+ Str.nl) "We found 42 samples. "
                (body (VDict one_row))) in
  let run := send_message sample_float_repr p w in
  chat (snd (fst run))
  = [UserCard "earlier question";
     UserCard "How many samples have plastic degradation?";
     AssistantCard "We found 42 samples." (Some sql)] /\
  trace (snd run)
  = [MessagesCreate
       (explain_request "secret-key"
          (explain_prompt "How many samples have plastic degradation?" sql
             "1" "[{'count': 42}]"));
     HttpPost (query_request "secret-token" sql);
     MessagesCreate
       (generate_request "secret-key" "How many samples have plastic degradation?")].
Proof.
  intros p sql w run. unfold run.
  rewrite (send_message_answers sample_float_repr p w "secret-key" "secret-token"
             (" " +:+ sql +:+ Str.nl) "We found 42 samples. " [] [] one_row
             [VDict [("count", VInt 42)]] [("total_count", VInt 1)]);
    try solve [reflexivity | discriminate].
  split; reflexivity.
Defined.
